(** * anemoi-datasets: dataset build loop, partial-statistics store,
      statistics aggregation and masked grid views

    A shallow embedding of

    - [anemoi/datasets/create/persistent.py]  ([PersistentDict]),
    - [anemoi/datasets/create/loaders.py]     ([ContentLoader],
      [StatisticsAdder], [GenericAdditionsLoader]),
    - [anemoi/datasets/data/masked.py]        ([Masked], [Thinning],
      [TrimEdge], ...),

    followed by the properties established about them.

    Conventions.  Python code that may raise is a function into [outcome]
    (a value, or the exception raised); code that mutates an object threads
    the object explicitly and, when the state reached at the point of the
    raise matters, returns a [run].  Of what the code logs or prints, the
    records that a property reads are kept (the warning of the partial
    store, the warnings of [allow_nan]); the build loop records its
    steps in a trace.  Timestamps ([numpy.datetime64],
    [datetime.datetime]) are integers counting seconds since the epoch.
    [float64] arrays hold IEEE-754 binary64 numbers, embedded with the
    [spec_float] operations at precision 53 and maximal exponent 1024. *)

From stdpp Require Import gmap strings list fin_maps sorting.
From Stdlib Require Import ZArith Lia Strings.Ascii Strings.Byte.
From Stdlib Require Import Floats.SpecFloat.

Set Default Proof Using "Type".
Local Open Scope string_scope.
Local Open Scope list_scope.
Local Open Scope nat_scope.

(* ================================================================== *)
(** * Part I.  The embedding                                            *)
(* ================================================================== *)

(** ** Python outcomes *)

Inductive exn : Type :=
| AssertionError (msg : string)
| ValueError (msg : string)
| Exception_ (msg : string)
| IndexError
| TypeError
| FileNotFoundError
| FloatingPointError
| CollaboratorError.

(** The result of calling a Python function: it returns or it raises. *)
Inductive outcome (A : Type) : Type :=
| Return (a : A)
| Raise (e : exn).
Arguments Return {A} a.
Arguments Raise {A} e.

Definition obind {A B} (m : outcome A) (k : A → outcome B) : outcome B :=
  match m with
  | Return a => k a
  | Raise e => Raise e
  end.

(** [assert cond, msg] *)
Definition py_assert (cond : bool) (msg : string) : outcome unit :=
  if cond then Return tt else Raise (AssertionError msg).

Declare Scope outcome_scope.
Delimit Scope outcome_scope with outcome.
Notation "x <- m ;; k" := (obind m (λ x, k))
  (at level 100, m at next level, right associativity) : outcome_scope.
Notation "m ;;; k" := (obind m (λ _, k))
  (at level 100, right associativity) : outcome_scope.

(** The result of running a method on a mutable object [S]: the object
    as the method left it, be it on return or at the raise. *)
Inductive run (S A : Type) : Type :=
| Done (a : A) (s : S)
| Failed (e : exn) (s : S).
Arguments Done {S A} a s.
Arguments Failed {S A} e s.

Definition final {S A} (r : run S A) : S :=
  match r with
  | Done _ s => s
  | Failed _ s => s
  end.

Definition rbind {S A B} (m : S → run S A) (k : A → S → run S B) (s : S) : run S B :=
  match m s with
  | Done a s' => k a s'
  | Failed e s' => Failed e s'
  end.

(** Lift an outcome that leaves the object untouched. *)
Definition lift {S A} (o : outcome A) (s : S) : run S A :=
  match o with
  | Return a => Done a s
  | Raise e => Failed e s
  end.

Declare Scope run_scope.
Delimit Scope run_scope with run.
Notation "x <- m ;; k" := (rbind m (λ x, k))
  (at level 100, m at next level, right associativity) : run_scope.
Notation "m ;;; k" := (rbind m (λ _, k))
  (at level 100, right associativity) : run_scope.

(** Timestamps. *)
Definition date : Type := Z.

(** Log records of the [logging] module. *)
Inductive log_level := DEBUG | INFO | WARNING.
Record log_record := LogRecord { level : log_level; message : string }.

(* ------------------------------------------------------------------ *)
(** ** [persistent.py]: the directory-backed partial store              *)
(* ------------------------------------------------------------------ *)

Module Persistent.

(** [hashlib.sha256(...)]: a function from byte strings to 32-byte
    digests.  Rocq strings are byte strings; they stand for the UTF-8
    encoding that [str(key).encode("utf-8")] produces. *)
Record hasher := Hasher {
  sha256 : string → list byte;
  sha256_digest_size : ∀ s, length (sha256 s) = 32
}.

Definition hex_digits : list ascii :=
  ["0"; "1"; "2"; "3"; "4"; "5"; "6"; "7";
   "8"; "9"; "a"; "b"; "c"; "d"; "e"; "f"]%char.

Definition hex_digit (n : nat) : ascii := nth n hex_digits "0"%char.

(** [.hexdigest()] *)
Fixpoint hexdigest (d : list byte) : string :=
  match d with
  | [] => ""
  | b :: d' =>
      String (hex_digit (Byte.to_nat b / 16))
        (String (hex_digit (Byte.to_nat b mod 16)) (hexdigest d'))
  end.

(** [fnmatch] of a file name against ["*.pickle"], as [glob] applies
    it: the name ends in [.pickle], and a leading dot is not matched by
    the star. *)
Fixpoint ends_with (suffix s : string) : bool :=
  String.eqb s suffix ||
  match s with
  | "" => false
  | String _ s' => ends_with suffix s'
  end.

Definition hidden (s : string) : bool :=
  match s with
  | String "." _ => true
  | _ => false
  end.

Definition glob_pickle (name : string) : bool :=
  negb (hidden name) && ends_with ".pickle" name.

(** [os.path.join(dirname, name)] for a plain file name. *)
Definition os_path_join (dirname name : string) : string :=
  if String.eqb dirname "" then name
  else if ends_with "/" dirname then dirname +:+ name
  else dirname +:+ "/" +:+ name.

Fixpoint has_slash (s : string) : bool :=
  match s with
  | "" => false
  | String c s' => Ascii.eqb c "/" || has_slash s'
  end.

(** [os.path.basename]: what follows the last slash. *)
Fixpoint basename (s : string) : string :=
  match s with
  | "" => ""
  | String c s' =>
      if has_slash s' then basename s'
      else if Ascii.eqb c "/" then s' else s
  end.

Fixpoint split_last_dot (s : string) : option (string * string) :=
  match s with
  | "" => None
  | String c s' =>
      match split_last_dot s' with
      | Some (root, ext) => Some (String c root, ext)
      | None => if Ascii.eqb c "." then Some ("", s) else None
      end
  end.

Fixpoint all_dots (s : string) : bool :=
  match s with
  | "" => true
  | String c s' => Ascii.eqb c "." && all_dots s'
  end.

(** [os.path.splitext] of a file name: the extension starts at the last
    dot, leading dots apart. *)
Definition splitext (s : string) : string * string :=
  match split_last_dot s with
  | Some (root, ext) => if all_dots root then (s, "") else (root, ext)
  | None => (s, "")
  end.

Section PersistentDict.
Context {K V : Type}.

(** [str(key)], the hash function, and the process identity that
    names temporary files. *)
Variable str : K → string.
Variable H : hasher.
Variable pid hostname : string.

(** The object and the directory behind it.  [files] is [None] when
    the directory does not exist; otherwise it maps each file name of
    the directory to the pair its pickle holds. *)
Record PersistentDict := {
  dirname : string;
  name : string;
  ext : string;
  files : option (gmap string (K * V));
  log : list log_record
}.

Definition with_files (d : PersistentDict) fs : PersistentDict :=
  {| dirname := dirname d; name := name d; ext := ext d;
     files := fs; log := log d |}.

Definition with_log (d : PersistentDict) (r : log_record) : PersistentDict :=
  {| dirname := dirname d; name := name d; ext := ext d;
     files := files d; log := log d ++ [r] |}.

(** [__init__], on the directory as it is found: [os.makedirs] with
    [exist_ok=True] keeps an existing directory. *)
Definition init (directory : string) (create : bool)
    (fs : option (gmap string (K * V))) : PersistentDict :=
  {| dirname := directory;
     name := (splitext (basename directory)).1;
     ext := (splitext (basename directory)).2;
     files := if create then Some (default ∅ fs) else fs;
     log := [] |}.

(** [__str__] *)
Definition to_str (d : PersistentDict) : string :=
  "PersistentDict(" +:+ dirname d +:+ ")".

(** [delete] *)
Definition delete_ (d : PersistentDict) : PersistentDict :=
  with_files d None.

(** The name, inside the directory, of the file for [key]:
    [f"{h}.pickle"] with [h] the hexadecimal SHA-256 of [str(key)]. *)
Definition file_name (key : K) : string :=
  hexdigest (sha256 H (str key)) +:+ ".pickle".

Definition tmp_name (key : K) : string :=
  file_name key +:+ ".tmp-" +:+ pid +:+ "-on-" +:+ hostname.

(** [__setitem__]: warn when the file is already there, write the
    pair to the temporary name, move it onto the final name. *)
Definition setitem (key : K) (elt : V) (d : PersistentDict) : outcome PersistentDict :=
  let path := file_name key in
  let d1 :=
    match files d with
    | Some fs =>
        if bool_decide (is_Some (fs !! path))
        then with_log d (LogRecord WARNING
               (os_path_join (dirname d) path +:+ " already exists"))
        else d
    | None => d
    end in
  match files d1 with
  | None => Raise FileNotFoundError
  | Some fs =>
      let tmp_path := tmp_name key in
      let fs1 := <[tmp_path := (key, elt)]> fs in
      let fs2 :=
        match fs1 !! tmp_path with
        | Some c => <[path := c]> (delete tmp_path fs1)
        | None => fs1
        end in
      Return (with_log (with_files d1 (Some fs2))
                (LogRecord DEBUG ("Written " +:+ name d +:+ " data for len " +:+ str key
                                  +:+ " in " +:+ os_path_join (dirname d) path)))
  end.

(** The pairs held by the files that [glob] matches. *)
Definition pickles (fs : gmap string (K * V)) : list (string * (K * V)) :=
  map_to_list (filter (λ p, glob_pickle p.1 = true) fs).

(** [items]: every pickle of the directory, in directory order; the
    assertion fails on a directory without pickles.  The generator
    leaves the directory as it is; its INFO record is not kept. *)
Definition items (d : PersistentDict) : outcome (list (K * V)) :=
  let found := pickles (default ∅ (files d)) in
  (py_assert (bool_decide (0 < length found)) "No files found" ;;;
   Return (found.*2))%outcome.

(** The writing loop of the self-test at the end of the file:
    [p[key] = value] for each pair in turn. *)
Fixpoint setitems (kvs : list (K * V)) (d : PersistentDict) : outcome PersistentDict :=
  match kvs with
  | [] => Return d
  | kv :: kvs' => (d' <- setitem kv.1 kv.2 d ;; setitems kvs' d')%outcome
  end.

End PersistentDict.
End Persistent.

(* ------------------------------------------------------------------ *)
(** ** [loaders.py]: build loop and statistics                         *)
(* ------------------------------------------------------------------ *)

Module Loaders.

(** *** binary64 *)

Definition prec : Z := 53.
Definition emax : Z := 1024.
Abbreviation float := spec_float.

(** *** Statistics blocks

    [compute_statistics] returns, and the partial store keeps, a
    dictionary of six arrays of one shape (dates, variables).  A block
    is kept here as the array of its cells. *)
Record cell := Cell {
  minimum : float;
  maximum : float;
  sums : float;
  squares : float;
  count : Z;
  has_nans : bool
}.

Record stats := Stats {
  stats_shape : nat * nat;
  stats_rows : list (list cell)
}.
(** [stats_shape] is the shape of each of the six arrays, and
    [stats_rows] holds [stats_shape.1] rows of [stats_shape.2] cells. *)

(** *** What the input provider hands over *)

Record cubelet := Cubelet {
  coords : list nat;
  to_numpy : list float
}.

Record cube := Cube {
  extended_user_shape : list nat;
  valid_datetime : list date;
  iterate_cubelets : list cubelet
}.

Record result := Result {
  result_dates : list date;
  get_cube : cube
}.

(** *** Observable steps of the build loop *)
Inductive event : Type :=
| EvHistory (action : string)
| EvProvenance (name : string)
| EvSkip (igroup : nat)
| EvSelect (group : list date)
| EvStage (local_indexes : list nat)
| EvStatistics (dates : list date)
| EvFlush (dates : list date)
| EvSetFlag (igroup : nat).

(** *** The Completion Registry

    Modelled from the spec: the class [ZarrBuiltRegistry] of the
    module [.zarr] is not among the sources.  Section 4.2 of the
    specification gives its contract: a flags array with one boolean
    per group, all false at creation; [get_flag] and [set_flag] read
    and write one boolean; [get_flags(sync)] returns the whole array,
    re-reading it from durable storage first when [sync] is true;
    [add_to_history] appends one entry.  [flags] is the durable array;
    [unsynced_flags] is what a read that does not re-sync observes, which
    may lag behind [flags]. *)
Record registry := Registry {
  flags : list bool;
  unsynced_flags : list bool;
  history : list string;
  provenance : list string
}.

Definition create (lengths : list nat) : registry :=
  {| flags := replicate (length lengths) false;
     unsynced_flags := replicate (length lengths) false;
     history := []; provenance := [] |}.

Definition get_flag (i : nat) (r : registry) : outcome bool :=
  match flags r !! i with
  | Some b => Return b
  | None => Raise IndexError
  end.

Definition set_flag (i : nat) (r : registry) : outcome registry :=
  if bool_decide (i < length (flags r))
  then Return {| flags := <[i := true]> (flags r);
                 unsynced_flags := unsynced_flags r;
                 history := history r; provenance := provenance r |}
  else Raise IndexError.

Definition get_flags (sync : bool) (r : registry) : list bool :=
  if sync then flags r else unsynced_flags r.

Definition add_to_history (action : string) (r : registry) : registry :=
  {| flags := flags r; unsynced_flags := unsynced_flags r;
     history := history r ++ [action]; provenance := provenance r |}.

Definition add_provenance (name : string) (r : registry) : registry :=
  {| flags := flags r; unsynced_flags := unsynced_flags r;
     history := history r; provenance := provenance r ++ [name] |}.

(** *** The write buffer

    Modelled from the spec: the class [ViewCacheArray] of the module
    [.writer] is not among the sources.  Section 4.3 of the
    specification gives its contract: built from a target shape and an
    index map from local rows to rows of the array store; assignments
    are absorbed by the in-memory [cache]; [flush] performs one bulk write
    of the cache into the array store at the mapped rows.  Arrays are
    kept as maps from an index tuple to the block stored there. *)
Abbreviation ndarray := (gmap (list nat) (list float)).

Record ViewCacheArray := {
  vca_shape : list nat;
  indexes : list nat;
  cache : ndarray
}.

Definition in_bounds (key shape : list nat) : bool :=
  bool_decide (length key ≤ length shape) &&
  forallb (λ p, bool_decide (p.1 < p.2)) (zip key shape).

Definition vca_setitem (key : list nat) (value : list float)
    (a : ViewCacheArray) : outcome ViewCacheArray :=
  if in_bounds key (vca_shape a)
  then Return {| vca_shape := vca_shape a; indexes := indexes a;
                 cache := <[key := value]> (cache a) |}
  else Raise IndexError.

(** The cache with every local row number replaced by the row of the
    array store it maps to. *)
Definition externalise (ix : list nat) (entry : list nat * list float)
    : outcome (list nat * list float) :=
  match entry.1 with
  | i :: rest =>
      match ix !! i with
      | Some g => Return (g :: rest, entry.2)
      | None => Raise IndexError
      end
  | [] => Raise IndexError
  end.

Fixpoint bulk (ix : list nat) (entries : list (list nat * list float))
    (array : ndarray) : outcome ndarray :=
  match entries with
  | [] => Return array
  | e :: entries' =>
      (w <- externalise ix e ;;
       bulk ix entries' (<[w.1 := w.2]> array))%outcome
  end.

(** [flush]; the write of the array store raises when [io_error] says
    so for these rows. *)
Definition vca_flush (io_error : list nat → bool) (a : ViewCacheArray)
    (array : ndarray) : outcome ndarray :=
  if io_error (indexes a) then Raise CollaboratorError
  else bulk (indexes a) (map_to_list (cache a)) array.

(** *** Collaborators of the build loop

    The groups of dates, the partition filter ([ChunkFilter]), the
    input provider, the value check, the statistics of a staged block
    and the failures of the array store come from outside the three
    source files. *)
Record collaborators := {
  groups : list (list date);
  chunk_filter : nat → bool;
  input_select : list date → outcome result;
  check_data_values : list float → string → (string → bool) → outcome unit;
  compute_statistics : ndarray → list string → (string → bool) → outcome stats;
  io_error : list nat → bool
}.

(** *** [ContentLoader] *)

(** Modelled from the spec: the class [TmpStatistics] of the module
    [.statistics] is not among the sources.  Section 4.5 of the
    specification: the partial statistics of a group are written to the
    partial store, keyed by the dates of the group.  The store is kept
    as the list of the records written. *)
Record tmp_record := {
  tmp_indexes : list nat;
  tmp_stats : stats;
  tmp_dates : list date
}.

Record ContentLoader := {
  dates : list date;
  variables_names : list string;
  allow_nans : list string;
  the_registry : registry;
  data_array : ndarray;
  tmp_statistics : list tmp_record;
  tmp_provenance : list string;
  trace : list event
}.

Definition emit (e : event) (s : ContentLoader) : ContentLoader :=
  {| dates := dates s; variables_names := variables_names s;
     allow_nans := allow_nans s; the_registry := the_registry s;
     data_array := data_array s; tmp_statistics := tmp_statistics s;
     tmp_provenance := tmp_provenance s; trace := trace s ++ [e] |}.

Definition with_registry (r : registry) (s : ContentLoader) : ContentLoader :=
  {| dates := dates s; variables_names := variables_names s;
     allow_nans := allow_nans s; the_registry := r;
     data_array := data_array s; tmp_statistics := tmp_statistics s;
     tmp_provenance := tmp_provenance s; trace := trace s |}.

Definition with_data_array (a : ndarray) (s : ContentLoader) : ContentLoader :=
  {| dates := dates s; variables_names := variables_names s;
     allow_nans := allow_nans s; the_registry := the_registry s;
     data_array := a; tmp_statistics := tmp_statistics s;
     tmp_provenance := tmp_provenance s; trace := trace s |}.

Definition with_tmp_statistics (t : list tmp_record) (p : list string)
    (s : ContentLoader) : ContentLoader :=
  {| dates := dates s; variables_names := variables_names s;
     allow_nans := allow_nans s; the_registry := the_registry s;
     data_array := data_array s; tmp_statistics := t;
     tmp_provenance := p; trace := trace s |}.

(** [Loader.allow_nan] *)
Definition loader_allow_nan (s : ContentLoader) (name : string) : bool :=
  bool_decide (name ∈ allow_nans s).

(** [dates_to_indexes(dates, all_dates)]: the positions of [dates]
    whose date occurs in [all_dates]. *)
Definition dates_to_indexes (ds all_dates : list date) : list nat :=
  (filter (λ p : nat * date, p.2 ∈ all_dates) (zip (seq 0 (length ds)) ds)).*1.

Section Build.
Variable C : collaborators.

(** One turn of the loop of [load_cube]. *)
Definition load_cubelet (s : ContentLoader) (c : cubelet)
    (array : ViewCacheArray) : outcome ViewCacheArray :=
  let data := to_numpy c in
  let local_indexes := coords c in
  match local_indexes !! 1 with
  | None => Raise IndexError
  | Some ivar =>
      match variables_names s !! ivar with
      | None => Raise IndexError
      | Some name =>
          (check_data_values C data name (loader_allow_nan s) ;;;
           vca_setitem local_indexes data array)%outcome
      end
  end.

(** [load_cube]: the staged array is local to [load_result]; the
    loader only records the steps. *)
Fixpoint load_cube (cs : list cubelet) (array : ViewCacheArray)
    (s : ContentLoader) : run ContentLoader ViewCacheArray :=
  match cs with
  | [] => Done array s
  | c :: cs' =>
      match load_cubelet s c array with
      | Raise e => Failed e s
      | Return array' => load_cube cs' array' (emit (EvStage (coords c)) s)
      end
  end.

(** [load_result] *)
Definition load_result (r : result) : ContentLoader → run ContentLoader unit :=
  let ds := result_dates r in
  let cube := get_cube r in
  (shape0 <- lift (match extended_user_shape cube !! 0 with
                   | Some n => Return n
                   | None => Raise IndexError
                   end) ;;
   lift (py_assert (bool_decide (shape0 = length ds)) "shape") ;;;
   let shape := extended_user_shape cube in
   let dates_in_data := valid_datetime cube in
   lift (py_assert (bool_decide (dates_in_data = ds))
           "Dates in data are not the requested ones:") ;;;
   (λ s,
      let ix := dates_to_indexes (dates s) dates_in_data in
      let array := {| vca_shape := shape; indexes := ix; cache := ∅ |} in
      (array' <- load_cube (iterate_cubelets cube) array ;;
       st <- (λ s', lift (compute_statistics C (cache array')
                            (variables_names s') (loader_allow_nan s')) s') ;;
       (λ s', Done tt
          (emit (EvStatistics dates_in_data)
             (with_tmp_statistics
                (tmp_statistics s' ++
                   [{| tmp_indexes := ix; tmp_stats := st;
                       tmp_dates := dates_in_data |}])
                (tmp_provenance s') s'))) ;;;
       (λ s', match vca_flush (io_error C) array' (data_array s') with
              | Raise e => Failed e s'
              | Return a => Done tt (emit (EvFlush ds) (with_data_array a s'))
              end)) s))%run.

(** The body of the loop of [load], for group number [igroup]. *)
Definition load_group (igroup : nat) (group : list date)
    : ContentLoader → run ContentLoader unit :=
  if negb (chunk_filter C igroup) then (λ s, Done tt s)
  else
    (done <- (λ s, lift (get_flag igroup (the_registry s)) s) ;;
     if (done : bool) then (λ s, Done tt (emit (EvSkip igroup) s))
     else
       lift (match group with
             | _ :: _ => Return tt
             | [] => Raise IndexError
             end) ;;;
       r <- lift (input_select C group) ;;
       (λ s, Done tt (emit (EvSelect group) s)) ;;;
       lift (py_assert (bool_decide (result_dates r = group)) "dates") ;;;
       load_result r ;;;
       (λ s, match set_flag igroup (the_registry s) with
             | Raise e => Failed e s
             | Return reg => Done tt (emit (EvSetFlag igroup) (with_registry reg s))
             end))%run.

(** [for igroup, group in enumerate(self.groups)], from [igroup] on. *)
Fixpoint load_groups (igroup : nat) (gs : list (list date))
    : ContentLoader → run ContentLoader unit :=
  match gs with
  | [] => λ s, Done tt s
  | group :: gs' =>
      (load_group igroup group ;;; load_groups (S igroup) gs')%run
  end.

Definition record_history (action : string) (s : ContentLoader)
    : run ContentLoader unit :=
  Done tt (emit (EvHistory action)
             (with_registry (add_to_history action (the_registry s)) s)).

Definition record_provenance (name : string) (s : ContentLoader)
    : run ContentLoader unit :=
  Done tt (emit (EvProvenance name)
             (with_tmp_statistics (tmp_statistics s) (tmp_provenance s ++ [name])
                (with_registry (add_provenance name (the_registry s)) s))).

(** [load] *)
Definition load : ContentLoader → run ContentLoader unit :=
  (record_history "loading_data_start" ;;;
   load_groups 0 (groups C) ;;;
   record_history "loading_data_end" ;;;
   record_provenance "provenance_load")%run.

(** Properties of the recorded steps.  [quiet]: no flag is set.
    [unflushed]: nothing is flushed.  [flag_after_flush]: every
    [set_flag] is recorded right after the flush of the dates of its
    group.  [idle]: a step of a run that finds its work done. *)
Definition quiet (evs : list event) : Prop := ∀ j, EvSetFlag j ∉ evs.

Definition unflushed (evs : list event) : Prop := ∀ g, EvFlush g ∉ evs.

Definition flag_after_flush (evs : list event) : Prop :=
  ∀ pre j post, evs = pre ++ EvSetFlag j :: post →
    ∃ pre' g, pre = pre' ++ [EvFlush g] ∧ groups C !! j = Some g.

Definition idle (e : event) : Prop :=
  (∃ i, e = EvSkip i) ∨ (∃ a, e = EvHistory a) ∨ (∃ n, e = EvProvenance n).

End Build.

(** *** Attributes of the dataset

    The entries of [z.attrs] that the statistics code reads.  An entry is
    [None] when the key is absent; ['variables_with_nans'] holds a list
    of names or the JSON null. *)
Record zattrs := {
  variables_with_nans : option (option (list string));
  statistics_start_date : option date;
  statistics_end_date : option date
}.

(** A start or end of statistics as the caller may give it. *)
Inductive user_date : Type :=
| UStr (s : string)
| UInt (n : Z)
| UDatetime (d : date).

(** Python's truth value of an optional bound. *)
Definition truthy (u : option user_date) : bool :=
  match u with
  | None => false
  | Some (UStr s) => negb (String.eqb s "")
  | Some (UInt n) => negb (n =? 0)%Z
  | Some (UDatetime _) => true
  end.

(** [d >= numpy.datetime64(b)] and [d <= numpy.datetime64(b)];
    [numpy.datetime64(None)] is NaT, which compares false with every date. *)
Definition date_ge (d : date) (b : option date) : bool :=
  match b with
  | Some s => (s <=? d)%Z
  | None => false
  end.

Definition date_le (d : date) (b : option date) : bool :=
  match b with
  | Some e => (d <=? e)%Z
  | None => false
  end.

(** *** The aggregated statistics *)
Record Summary := {
  s_minimum : list float;
  s_maximum : list float;
  s_mean : list float;
  s_count : list Z;
  s_sums : list float;
  s_squares : list float;
  s_stdev : list float;
  s_variables_names : list string;
  s_has_nans : list bool
}.

Inductive array1 : Type :=
| FloatArray (a : list float)
| IntArray (a : list Z)
| BoolArray (a : list bool).

(** [summary[k]] for the eight names written to the dataset. *)
Definition written (s : Summary) : list (string * array1) :=
  [("mean", FloatArray (s_mean s));
   ("stdev", FloatArray (s_stdev s));
   ("minimum", FloatArray (s_minimum s));
   ("maximum", FloatArray (s_maximum s));
   ("sums", FloatArray (s_sums s));
   ("squares", FloatArray (s_squares s));
   ("count", IntArray (s_count s));
   ("has_nans", BoolArray (s_has_nans s))].

(** [_add_dataset(name=k, array=summary[k])] for each of them. *)
Definition add_datasets (s : Summary) (arrays : gmap string array1)
    : gmap string array1 :=
  foldl (λ m p, <[p.1 := p.2]> m) arrays (written s).

(** *** [StatisticsAdder] *)

Record StatisticsAdder := {
  sa_path : string;
  sa_dates : list date;
  sa_missing_dates : list date;
  user_statistics_start : option user_date;
  user_statistics_end : option user_date;
  statistics_output : option string;
  sa_attrs : zattrs;
  sa_registry : registry;
  sa_arrays : gmap string array1;
  sa_warnings : list string
}.

(** The resolvers [as_first_date] and [as_last_date] of the module
    [anemoi.datasets.data.misc], which is not among the sources. *)
Record resolvers := {
  as_first_date : option user_date → list date → outcome date;
  as_last_date : option user_date → list date → outcome date
}.

(** [StatisticsAdder.allow_nan] *)
Definition sa_allow_nan (name : string) (a : StatisticsAdder)
    : outcome bool * list string :=
  match variables_with_nans (sa_attrs a) with
  | Some (Some l) => (Return (bool_decide (name ∈ l)), sa_warnings a)
  | Some None => (Raise TypeError, sa_warnings a)
  | None =>
      (Return true,
       sa_warnings a ++
         ["Cannot find 'variables_with_nans' in " +:+ sa_path a +:+
          ". Assuming nans allowed for " +:+ name +:+ "."])
  end.

(** [StatisticsAdder._get_statistics_dates].  The assertions on the
    type of the dates hold of every value of the type [date]. *)
Definition _get_statistics_dates (R : resolvers) (a : StatisticsAdder)
    : outcome (list date) :=
  let ds := sa_dates a in
  (match ds with
   | _ :: _ => Return tt
   | [] => Raise IndexError
   end ;;;
   let ds := filter (λ d, d ∉ sa_missing_dates a) ds in
   let start := statistics_start_date (sa_attrs a) in
   let end_ := statistics_end_date (sa_attrs a) in
   let ds := filter (λ d, date_ge d start && date_le d end_ = true) ds in
   ds <- (if truthy (user_statistics_start a) then
            limit <- as_first_date R (user_statistics_start a) ds ;;
            Return (filter (λ d, (limit ≤ d)%Z) ds)
          else Return ds) ;;
   ds <- (if truthy (user_statistics_end a) then
            limit <- as_last_date R (user_statistics_start a) ds ;;
            Return (filter (λ d, (d ≤ limit)%Z) ds)
          else Return ds) ;;
   Return ds)%outcome.

Inductive writer := ToDataset | ToStdout | ToFile.

(** The dispatch of [__init__] on [statistics_output]. *)
Definition output_writer (a : StatisticsAdder) : writer :=
  match statistics_output a with
  | None => ToDataset
  | Some out => if String.eqb out "-" then ToStdout else ToFile
  end.

(** [StatisticsAdder.write_stats_to_dataset] *)
Definition write_stats_to_dataset (st : Summary) (a : StatisticsAdder)
    : run StatisticsAdder unit :=
  if truthy (user_statistics_start a) || truthy (user_statistics_end a) then
    Failed (ValueError ("Cannot write statistics in dataset with user specified dates. "
                        +:+ "This would be conflicting with the dataset metadata.")) a
  else if negb (forallb id (get_flags false (sa_registry a))) then
    Failed (Exception_ ("❗Zarr " +:+ sa_path a +:+
                        " is not fully built, not writting statistics into dataset.")) a
  else
    Done tt
      {| sa_path := sa_path a; sa_dates := sa_dates a;
         sa_missing_dates := sa_missing_dates a;
         user_statistics_start := user_statistics_start a;
         user_statistics_end := user_statistics_end a;
         statistics_output := statistics_output a;
         sa_attrs := sa_attrs a;
         sa_registry := add_to_history "compute_statistics_end" (sa_registry a);
         sa_arrays := add_datasets st (sa_arrays a);
         sa_warnings := sa_warnings a |}.

(** The call [self.output_writer(stats)] of [run]; writing to a file or
    to the log leaves the dataset as it is. *)
Definition write_stats (st : Summary) (a : StatisticsAdder) : run StatisticsAdder unit :=
  match output_writer a with
  | ToDataset => write_stats_to_dataset st a
  | ToStdout => Done tt a
  | ToFile => Done tt a
  end.

(** *** Floating-point arithmetic under [np.seterr(all="raise", under="warn")]

    [GenericDatasetHandler.__init__] makes every invalid operation,
    division by zero and overflow raise [FloatingPointError]. *)

Definition is_nan (x : float) : bool :=
  match x with S754_nan => true | _ => false end.

Definition is_infinite (x : float) : bool :=
  match x with S754_infinity _ => true | _ => false end.

Definition is_finite (x : float) : bool :=
  match x with S754_zero _ | S754_finite _ _ _ => true | _ => false end.

Definition fp_zero : float := S754_zero false.
Definition fp_nan : float := S754_nan.

(** Conversion of an [int64] to [float64], to nearest even. *)
Definition of_int (z : Z) : float := binary_normalize prec emax z 0 false.

(** The exception check on the result [r] of an operation: a NaN made
    from operands that are not NaN is an invalid operation; an infinity
    made from finite operands is an overflow or a division by zero. *)
Definition trap (operands : list float) (r : float) : outcome float :=
  if is_nan r && forallb (λ a, negb (is_nan a)) operands
  then Raise FloatingPointError
  else if is_infinite r && forallb is_finite operands
  then Raise FloatingPointError
  else Return r.

Definition fp_add (a b : float) := trap [a; b] (SFadd prec emax a b).
Definition fp_sub (a b : float) := trap [a; b] (SFsub prec emax a b).
Definition fp_mul (a b : float) := trap [a; b] (SFmul prec emax a b).
Definition fp_div (a b : float) := trap [a; b] (SFdiv prec emax a b).
Definition fp_sqrt (a : float) := trap [a] (SFsqrt prec emax a).

(** An operation applied element by element to arrays of one shape. *)
Fixpoint elementwise2 {A B D} (f : A → B → outcome D) (l1 : list A) (l2 : list B)
    : outcome (list D) :=
  match l1, l2 with
  | [], [] => Return []
  | a :: l1', b :: l2' =>
      (d <- f a b ;; ds <- elementwise2 f l1' l2' ;; Return (d :: ds))%outcome
  | _, _ => Raise (ValueError "operands could not be broadcast together")
  end.

Fixpoint elementwise {A D} (f : A → outcome D) (l : list A) : outcome (list D) :=
  match l with
  | [] => Return []
  | a :: l' => (d <- f a ;; ds <- elementwise f l' ;; Return (d :: ds))%outcome
  end.

(** [np.fmin] and [np.fmax]: a NaN operand is ignored. *)
Definition fmin (a b : float) : float :=
  if is_nan a then b else if is_nan b then a
  else if SFleb a b then a else b.

Definition fmax (a b : float) : float :=
  if is_nan a then b else if is_nan b then a
  else if SFleb b a then a else b.

(** [np.nanmin(_, axis=0)] and [np.nanmax(_, axis=0)] on one column. *)
Definition nanmin (col : list float) : outcome float :=
  match col with
  | [] => Raise (ValueError "zero-size array to reduction operation fmin which has no identity")
  | x :: xs => Return (foldl fmin x xs)
  end.

Definition nanmax (col : list float) : outcome float :=
  match col with
  | [] => Raise (ValueError "zero-size array to reduction operation fmax which has no identity")
  | x :: xs => Return (foldl fmax x xs)
  end.

Fixpoint add_reduce (acc : float) (xs : list float) : outcome float :=
  match xs with
  | [] => Return acc
  | x :: xs' => (acc' <- fp_add acc x ;; add_reduce acc' xs')%outcome
  end.

(** [np.nansum(_, axis=0)] on one column of floats: NaN counts as zero. *)
Definition nansum (col : list float) : outcome float :=
  match map (λ x, if is_nan x then fp_zero else x) col with
  | [] => Return fp_zero
  | x :: xs => add_reduce x xs
  end.

(** Two's-complement wrap of [int64] arithmetic. *)
Definition wrap64 (z : Z) : Z :=
  ((z + 2 ^ 63) mod 2 ^ 64 - 2 ^ 63)%Z.

(** [np.nansum(_, axis=0)] on one column of [int64]. *)
Definition intsum (col : list Z) : Z :=
  foldl (λ acc x, wrap64 (acc + x)) 0%Z col.

(** *** [GenericAdditionsLoader] *)

(** The value stored under a key of the temporary storage:
    [[dates_ok, missing_dates, i, stats]]. *)
Record partial := Partial {
  p_dates : list date;
  p_missing_dates : list date;
  p_index : nat;
  p_stats : option stats
}.

(** What [finalise] takes from outside the source files: the tolerance
    of [check_variance], and the comparison of [check_statistics] with
    the statistics already in the dataset. *)
Record additions_collaborators := {
  epsilon : float;
  reference_is_close : Summary → bool
}.

Record GenericAdditionsLoader := {
  ga_path : string;
  ga_dates : list date;
  ds_variables : list string;
  ga_attrs : zattrs;
  _variables_with_nans : option (option (list string));
  tmp_storage : Persistent.PersistentDict (K := list date) (V := partial);
  summary : option Summary;
  ga_registry : registry;
  ga_arrays : gmap string array1;
  ga_warnings : list string
}.

(** The cached property [_variables_with_nans]: computed from the
    attributes at the first access, kept afterwards. *)
Definition read_variables_with_nans (g : GenericAdditionsLoader)
    : option (list string) * GenericAdditionsLoader :=
  match _variables_with_nans g with
  | Some v => (v, g)
  | None =>
      let v := match variables_with_nans (ga_attrs g) with
               | Some v => v
               | None => None
               end in
      (v, {| ga_path := ga_path g; ga_dates := ga_dates g; ds_variables := ds_variables g;
             ga_attrs := ga_attrs g; _variables_with_nans := Some v;
             tmp_storage := tmp_storage g; summary := summary g;
             ga_registry := ga_registry g; ga_arrays := ga_arrays g;
             ga_warnings := ga_warnings g |})
  end.

Definition warn (msg : string) (g : GenericAdditionsLoader) : GenericAdditionsLoader :=
  {| ga_path := ga_path g; ga_dates := ga_dates g; ds_variables := ds_variables g;
     ga_attrs := ga_attrs g; _variables_with_nans := _variables_with_nans g;
     tmp_storage := tmp_storage g; summary := summary g;
     ga_registry := ga_registry g; ga_arrays := ga_arrays g;
     ga_warnings := ga_warnings g ++ [msg] |}.

(** The cached value, once computed, is the one of the attributes:
    nothing in these classes rewrites ['variables_with_nans']. *)
Definition cache_coherent (g : GenericAdditionsLoader) : Prop :=
  _variables_with_nans g = None ∨
  _variables_with_nans g = Some (match variables_with_nans (ga_attrs g) with
                                 | Some v => v
                                 | None => None
                                 end).

(** [GenericAdditionsLoader.allow_nan] *)
Definition ga_allow_nan (name : string) (g : GenericAdditionsLoader)
    : bool * GenericAdditionsLoader :=
  let '(v, g') := read_variables_with_nans g in
  match v with
  | Some l => (bool_decide (name ∈ l), g')
  | None =>
      (true, warn ("❗Cannot find 'variables_with_nans' in " +:+ ga_path g +:+
                   ", Assuming nans allowed for " +:+ name +:+ ".") g')
  end.

(** [_get_empty_stats_dict]: NaN, -1 and False everywhere. *)
Definition empty_cell : cell :=
  {| minimum := fp_nan; maximum := fp_nan; sums := fp_nan; squares := fp_nan;
     count := (-1)%Z; has_nans := false |}.

Definition _get_empty_stats_dict (shape : nat * nat) : list (list cell) :=
  replicate shape.1 (replicate shape.2 empty_cell).

(** The state of the first loop of [finalise]. *)
Record coverage := {
  found : gset date;
  missing : gset date;
  mask : list bool;
  agg : list (list cell)
}.

(** [agg[k][idates, ...] = stats[k]], for the six [k] at once. *)
Definition assign_rows (idates : list nat) (rows : list (list cell))
    (a : list (list cell)) : list (list cell) :=
  foldl (λ acc p, <[p.1 := p.2]> acc) a (zip idates rows).

(** One turn of the loop over [self.tmp_storage.items()].
    [_check_type_equal] compares the types of the first dates of two
    lists that the assertions before it found of equal length: it holds
    of every two lists of [date]. *)
Definition absorb (all_dates : list date) (variables : list string)
    (item : list date * partial) (c : coverage) : outcome coverage :=
  let _dates := item.1 in
  let ds := p_dates item.2 in
  let missing_dates := p_missing_dates item.2 in
  match missing_dates with
  | _ :: _ =>
      Return {| found := found c;
                missing := missing c ∪ list_to_set missing_dates;
                mask := mask c ++ [false];
                agg := agg c |}
  | [] =>
      (st <- match p_stats item.2 with
             | Some st => Return st
             | None => Raise (AssertionError "stats")
             end ;;
       let shape := stats_shape st in
       py_assert (bool_decide (shape.1 = length ds)) "shape" ;;;
       py_assert (bool_decide (shape.1 = length _dates)) "shape" ;;;
       py_assert (bool_decide (shape.2 = length variables)) "shape" ;;;
       py_assert (forallb (λ d, bool_decide (d ∉ found c)) ds) "Duplicates found" ;;;
       let found' := found c ∪ list_to_set ds in
       let idates := dates_to_indexes all_dates ds in
       py_assert (bool_decide (length idates = length ds)) "idates" ;;;
       Return {| found := found';
                 missing := missing c;
                 mask := mask c ++ [true];
                 agg := assign_rows idates (stats_rows st) (agg c) |})%outcome
  end.

Fixpoint absorb_all (all_dates : list date) (variables : list string)
    (items : list (list date * partial)) (c : coverage) : outcome coverage :=
  match items with
  | [] => Return c
  | item :: items' =>
      (c' <- absorb all_dates variables item c ;;
       absorb_all all_dates variables items' c')%outcome
  end.

(** [a[mask, ...]]: the rows where the mask holds; the mask has one
    entry per row. *)
Definition boolean_index {A} (a : list A) (m : list bool) : outcome (list A) :=
  if bool_decide (length m = length a)
  then Return ((filter (λ p : A * bool, p.2 = true) (zip a m)).*1)
  else Raise IndexError.

(** Lines 607 to 651 of [finalise]: the coverage of the dates by the
    partial records, and the rows of [agg] that the mask keeps. *)
Definition finalise_coverage (all_dates : list date) (variables : list string)
    (items : list (list date * partial)) : outcome (coverage * list (list cell)) :=
  let shape := (length all_dates, length variables) in
  (c <- absorb_all all_dates variables items
          {| found := ∅; missing := ∅; mask := [];
             agg := _get_empty_stats_dict shape |} ;;
   py_assert (forallb (λ d, bool_decide (d ∈ found c) || bool_decide (d ∈ missing c)) all_dates)
     "Statistics for date not precomputed." ;;;
   py_assert (bool_decide (length all_dates = size (found c) + size (missing c)))
     "Not all dates found in precomputed statistics" ;;;
   py_assert (bool_decide (found c ## missing c))
     "Duplicate dates found in precomputed statistics" ;;;
   py_assert (bool_decide (length (agg c) = length all_dates)) "shape" ;;;
   kept <- boolean_index (agg c) (mask c) ;;
   py_assert (bool_decide (Z.of_nat (length kept) =
                           Z.of_nat (length all_dates) - Z.of_nat (size (missing c)))%Z)
     "shape" ;;;
   Return (c, kept))%outcome.

(** Column [j] of one of the six arrays. *)
Definition column {A} (f : cell → A) (rows : list (list cell)) (j : nat) : list A :=
  map (λ row, f (nth j row empty_cell)) rows.

(** Modelled from the spec: [check_variance] of the module [.statistics]
    is not among the sources.  Section 4.7, step 5 of the specification:
    validate [variance >= -epsilon] elementwise; a negative variance
    beyond the tolerance is a fatal error. *)
Definition check_variance (eps : float) (x : list float) : outcome unit :=
  if forallb (λ v, SFleb (SFopp eps) v) x then Return tt
  else Raise (ValueError "Negative variance").

(** Lines 653 to 687 of [finalise]: reduction over the dates, then the
    derived statistics. *)
Definition finalise_reduce (E : additions_collaborators) (variables : list string)
    (rows : list (list cell)) : outcome Summary :=
  let js := seq 0 (length variables) in
  (minimum_ <- elementwise (λ j, nanmin (column minimum rows j)) js ;;
   maximum_ <- elementwise (λ j, nanmax (column maximum rows j)) js ;;
   sums_ <- elementwise (λ j, nansum (column sums rows j)) js ;;
   squares_ <- elementwise (λ j, nansum (column squares rows j)) js ;;
   let count_ := map (λ j, intsum (column count rows j)) js in
   let has_nans_ := map (λ j, existsb id (column has_nans rows j)) js in
   mean <- elementwise2 fp_div sums_ (map of_int count_) ;;
   q <- elementwise2 fp_div squares_ (map of_int count_) ;;
   mm <- elementwise2 fp_mul mean mean ;;
   x <- elementwise2 fp_sub q mm ;;
   check_variance (epsilon E) x ;;;
   stdev <- elementwise fp_sqrt x ;;
   Return {| s_minimum := minimum_; s_maximum := maximum_; s_mean := mean;
             s_count := count_; s_sums := sums_; s_squares := squares_;
             s_stdev := stdev; s_variables_names := variables;
             s_has_nans := has_nans_ |})%outcome.

Definition set_summary (s : Summary) (g : GenericAdditionsLoader) : GenericAdditionsLoader :=
  {| ga_path := ga_path g; ga_dates := ga_dates g; ds_variables := ds_variables g;
     ga_attrs := ga_attrs g; _variables_with_nans := _variables_with_nans g;
     tmp_storage := tmp_storage g; summary := Some s;
     ga_registry := ga_registry g; ga_arrays := ga_arrays g;
     ga_warnings := ga_warnings g |}.

(** [_write] followed by [self.tmp_storage.delete()]. *)
Definition _write (s : Summary) (g : GenericAdditionsLoader) : GenericAdditionsLoader :=
  {| ga_path := ga_path g; ga_dates := ga_dates g; ds_variables := ds_variables g;
     ga_attrs := ga_attrs g; _variables_with_nans := _variables_with_nans g;
     tmp_storage := Persistent.delete_ (tmp_storage g); summary := summary g;
     ga_registry := add_to_history "compute_statistics_end" (ga_registry g);
     ga_arrays := add_datasets s (ga_arrays g);
     ga_warnings := ga_warnings g |}.

(** [GenericAdditionsLoader.finalise] *)
Definition finalise (E : additions_collaborators) : GenericAdditionsLoader → run GenericAdditionsLoader unit :=
  (items <- (λ g, lift (Persistent.items (tmp_storage g)) g) ;;
   cov <- (λ g, lift (finalise_coverage (ga_dates g) (ds_variables g) items) g) ;;
   s <- (λ g, lift (finalise_reduce E (ds_variables g) cov.2) g) ;;
   (λ g, Done tt (set_summary s g)) ;;;
   lift (py_assert (reference_is_close E s) "check_statistics") ;;;
   (λ g, Done tt (_write s g)))%run.

(** *** The statements of the specification, for comparison with the code *)

(** The precondition of the write as the specification words it: the
    registry reports all flags true, re-synced from durable storage. *)
Definition fully_built_synced (a : StatisticsAdder) : bool :=
  forallb id (get_flags true (sa_registry a)).

(** [_get_statistics_dates] as the specification intends it: the limit
    of the last filter is resolved from [user_statistics_end]. *)
Definition _get_statistics_dates_intended (R : resolvers) (a : StatisticsAdder)
    : outcome (list date) :=
  let ds := sa_dates a in
  (match ds with
   | _ :: _ => Return tt
   | [] => Raise IndexError
   end ;;;
   let ds := filter (λ d, d ∉ sa_missing_dates a) ds in
   let start := statistics_start_date (sa_attrs a) in
   let end_ := statistics_end_date (sa_attrs a) in
   let ds := filter (λ d, date_ge d start && date_le d end_ = true) ds in
   ds <- (if truthy (user_statistics_start a) then
            limit <- as_first_date R (user_statistics_start a) ds ;;
            Return (filter (λ d, (limit ≤ d)%Z) ds)
          else Return ds) ;;
   ds <- (if truthy (user_statistics_end a) then
            limit <- as_last_date R (user_statistics_end a) ds ;;
            Return (filter (λ d, (d ≤ limit)%Z) ds)
          else Return ds) ;;
   Return ds)%outcome.

(** The dates that the partial records report with statistics, and
    the dates that they report missing. *)
Definition has_statistics (p : partial) : Prop := p_missing_dates p = [].

Fixpoint found_of (items : list (list date * partial)) : gset date :=
  match items with
  | [] => ∅
  | item :: items' =>
      match p_missing_dates item.2 with
      | [] => list_to_set (p_dates item.2) ∪ found_of items'
      | _ :: _ => found_of items'
      end
  end.

Fixpoint missing_of (items : list (list date * partial)) : gset date :=
  match items with
  | [] => ∅
  | item :: items' =>
      match p_missing_dates item.2 with
      | [] => missing_of items'
      | _ :: _ => list_to_set (p_missing_dates item.2) ∪ missing_of items'
      end
  end.

(** The coverage invariant of the aggregation: every target date is
    either found or missing and never both, the sizes add up, and no
    date is carried by two records that have statistics. *)
Definition covered (all_dates : list date) (items : list (list date * partial)) : Prop :=
  (∀ d, d ∈ all_dates →
        (d ∈ found_of items ∧ d ∉ missing_of items) ∨
        ((d ∉ found_of items) ∧ d ∈ missing_of items)) ∧
  (found_of items ## missing_of items) ∧
  length all_dates = size (found_of items) + size (missing_of items) ∧
  (∀ i j ri rj d, i < j → items !! i = Some ri → items !! j = Some rj →
     has_statistics ri.2 → has_statistics rj.2 →
     d ∈ p_dates ri.2 → d ∉ p_dates rj.2).

(** [sum_of_squares / count - mean * mean], from the published arrays. *)
Definition variance (s : Summary) : list float :=
  zip_with (SFsub prec emax)
    (zip_with (SFdiv prec emax) (s_squares s) (map of_int (s_count s)))
    (zip_with (SFmul prec emax) (s_mean s) (s_mean s)).

(** [sqrt(max(v, 0))], with the maximum of [np.fmax]. *)
Definition sqrt_clamped (v : float) : float :=
  SFsqrt prec emax (fmax v fp_zero).

(** *** The work of a run of [load] *)

(** The groups that the loop of [load] has to build, from group number
    [igroup] on: those that the worker owns and whose flag is not set. *)
Fixpoint pending (owned : nat → bool) (fl : list bool) (igroup : nat)
    (gs : list (list date)) : list (list date) :=
  match gs with
  | [] => []
  | g :: gs' =>
      if owned igroup && bool_decide (fl !! igroup = Some false)
      then g :: pending owned fl (S igroup) gs'
      else pending owned fl (S igroup) gs'
  end.

(** *** [GenericDatasetHandler.read_dataset_metadata] *)

(** [sorted(...)] of a list of dates. *)
Definition py_sorted (l : list date) : list date := merge_sort Z.le l.

(** The dataset that [open_dataset(self.path)] returns, as far as the
    method reads it; [od_missing] lists the set [ds.missing] in the order
    of its iteration. *)
Record opened_dataset := {
  od_shape : list nat;
  od_variables : list string;
  od_dates : list date;
  od_missing : list nat
}.

(** The attributes that the method sets. *)
Record dataset_metadata := {
  dataset_shape : list nat;
  md_variables_names : list string;
  md_dates : list date;
  md_missing_dates : list date
}.

(** [attrs_missing_dates] is the entry ['missing_dates'] of the
    attributes, [None] when the key is absent. *)
Definition read_dataset_metadata (ds : opened_dataset)
    (attrs_missing_dates : option (list date)) : outcome dataset_metadata :=
  (n <- match od_shape ds !! 1 with
        | Some n => Return n
        | None => Raise IndexError
        end ;;
   py_assert (bool_decide (length (od_variables ds) = n)) "dataset_shape" ;;;
   picked <- elementwise (λ i, match od_dates ds !! i with
                               | Some d => Return d
                               | None => Raise IndexError
                               end) (od_missing ds) ;;
   let self_missing_dates := py_sorted picked in
   let missing_dates := py_sorted (default [] attrs_missing_dates) in
   py_assert (bool_decide (missing_dates = self_missing_dates)) "missing_dates" ;;;
   Return {| dataset_shape := od_shape ds;
             md_variables_names := od_variables ds;
             md_dates := od_dates ds;
             md_missing_dates := self_missing_dates |})%outcome.

(** *** [StatisticsAdder.run] *)

(** [get_aggregated] belongs to the class [TmpStatistics] of the module
    [.statistics]; the summary it returns for the dates, or the exception
    it raises, is the argument [get_aggregated]. *)
Definition sa_run (R : resolvers) (get_aggregated : list date → outcome Summary)
    : StatisticsAdder → run StatisticsAdder unit :=
  (ds <- (λ a, lift (_get_statistics_dates R a) a) ;;
   st <- lift (get_aggregated ds) ;;
   write_stats st)%run.

(** *** [AdditionsLoader.run] *)

(** What the body of the [try] gives for one row of the dataset: the
    statistics of the row, [MissingDateError], or another exception,
    which [run] does not catch. *)
Inductive row_outcome : Type :=
| RowStatistics (st : stats)
| RowMissingDate
| RowRaises (e : exn).

(** The partition filter ([ChunkFilter(parts, total)]) and, for row [i],
    the outcome of [compute_statistics(self.input_array[i : i + 1, ...],
    self.ds.variables, allow_nan=self.allow_nan)]. *)
Record run_collaborators := {
  part_filter : nat → bool;
  row_statistics : nat → (string → bool) → row_outcome
}.

(** The loop of [run] from row [i] on, over the dates that remain.  The
    state is the list of the calls [self.tmp_storage.add(value, key=dates)]
    made so far, each as the pair of its key and value. *)
Fixpoint additions_run_from (P : run_collaborators) (allow_nan : string → bool)
    (i : nat) (ds : list date) (added : list (list date * partial))
    : run (list (list date * partial)) unit :=
  match ds with
  | [] => Done tt added
  | date :: ds' =>
      if negb (part_filter P i) then additions_run_from P allow_nan (S i) ds' added
      else
        match row_statistics P i allow_nan with
        | RowRaises e => Failed e added
        | RowStatistics st =>
            let dates_ok := [date] in
            let missing_dates := [] in
            let dates := py_sorted (dates_ok ++ missing_dates) in
            additions_run_from P allow_nan (S i) ds'
              (added ++ [(dates, {| p_dates := dates_ok; p_missing_dates := missing_dates;
                                    p_index := i; p_stats := Some st |})])
        | RowMissingDate =>
            let dates_ok := [] in
            let missing_dates := [date] in
            let dates := py_sorted (dates_ok ++ missing_dates) in
            additions_run_from P allow_nan (S i) ds'
              (added ++ [(dates, {| p_dates := dates_ok; p_missing_dates := missing_dates;
                                    p_index := i; p_stats := None |})])
        end
  end.

(** [AdditionsLoader.run]: the records handed to the temporary storage.
    The warnings that [allow_nan] may give inside [compute_statistics]
    are not kept. *)
Definition additions_run (P : run_collaborators) (g : GenericAdditionsLoader)
    : run (list (list date * partial)) unit :=
  additions_run_from P (λ name, (ga_allow_nan name g).1) 0 (ga_dates g) [].

End Loaders.

(* ------------------------------------------------------------------ *)
(** ** [masked.py]: views that keep part of the grid                   *)
(* ------------------------------------------------------------------ *)

Module Masked.

Abbreviation float := spec_float.

(** *** numpy arrays and the indexing that [Masked] uses *)

(** An array of any rank: a scalar, or the sequence of its rows. *)
#[warnings="-register-all"]
Inductive nd : Type :=
| Scalar (x : float)
| Arr (rows : list nd).

Definition vector (l : list float) : nd := Arr (map Scalar l).

(** [len(a)] *)
Definition np_len (a : nd) : outcome nat :=
  match a with
  | Arr rows => Return (length rows)
  | Scalar _ => Raise TypeError
  end.

(** The elements that a boolean vector selects. *)
Definition select {A} (l : list A) (m : list bool) : list A :=
  (filter (λ p : A * bool, p.2 = true) (zip l m)).*1.

(** [a[mask]].  A boolean array must have one entry per row of [a].
    [None] is [numpy.newaxis]: the result is [a] as the only row of a
    new array. *)
Definition index_by (a : nd) (mask : option (list bool)) : outcome nd :=
  match mask with
  | None => Return (Arr [a])
  | Some m =>
      match a with
      | Arr rows =>
          if bool_decide (length m = length rows)
          then Return (Arr (select rows m))
          else Raise IndexError
      | Scalar _ => Raise IndexError
      end
  end.

(** [np.count_nonzero(mask)]; [None] becomes a zero-dimensional object
    array whose only element is false. *)
Definition count_nonzero (mask : option (list bool)) : nat :=
  match mask with
  | None => 0
  | Some m => length (filter (λ b : bool, b = true) m)
  end.

(** [a.flatten()] *)
Fixpoint flatten (a : nd) : list float :=
  match a with
  | Scalar x => [x]
  | Arr rows => (fix go (rs : list nd) : list float :=
                   match rs with
                   | [] => []
                   | r :: rs' => flatten r ++ go rs'
                   end) rows
  end.

(** *** Datasets *)

(** A dataset that is not one of the views of this file. *)
Record stored := {
  st_shape : list nat;
  st_latitudes : list float;
  st_longitudes : list float;
  st_field_shape : list nat
}.

(** The class of a view, with the attributes its constructor keeps. *)
Inductive kind : Type :=
| KMasked
| KThinning (thinning : option Z) (method : string)
| KMaskFromDataset (field_name : string) (threshold : float)
| KCropping (area : list float)
| KTrimEdge (edge : list Z).

Inductive Dataset : Type :=
| Stored (d : stored)
| View (k : kind) (forward : Dataset) (mask : option (list bool)).

(** [Masked.shape]: [forward.shape[:-1] + (np.count_nonzero(mask),)] *)
Fixpoint shape (d : Dataset) : list nat :=
  match d with
  | Stored b => st_shape b
  | View _ forward mask => removelast (shape forward) ++ [count_nonzero mask]
  end.

(** [Masked.latitudes]: [forward.latitudes[mask]] *)
Fixpoint latitudes (d : Dataset) : outcome nd :=
  match d with
  | Stored b => Return (vector (st_latitudes b))
  | View _ forward mask => (a <- latitudes forward ;; index_by a mask)%outcome
  end.

(** [Masked.longitudes]: [forward.longitudes[mask]] *)
Fixpoint longitudes (d : Dataset) : outcome nd :=
  match d with
  | Stored b => Return (vector (st_longitudes b))
  | View _ forward mask => (a <- longitudes forward ;; index_by a mask)%outcome
  end.

(** [field_shape]: overridden by [MaskFromDataset] and [TrimEdge]; the
    other views hand the question to [forward]. *)
Fixpoint field_shape (d : Dataset) : list Z :=
  match d with
  | Stored b => map Z.of_nat (st_field_shape b)
  | View (KMaskFromDataset _ _) _ mask => [Z.of_nat (count_nonzero mask)]
  | View (KTrimEdge edge) forward _ =>
      match field_shape forward with
      | [x; y] =>
          [(x - (nth 0 edge 0 + nth 1 edge 0))%Z;
           (y - (nth 2 edge 0 + nth 3 edge 0))%Z]
      | other => other
      end
  | View _ forward _ => field_shape forward
  end.

(** [Masked.__init__]: the grid must be the fourth and last axis. *)
Definition masked_init (k : kind) (forward : Dataset) (mask : option (list bool))
    : outcome Dataset :=
  (py_assert (bool_decide (length (shape forward) = 4)) "Grids must be 1D for now" ;;;
   Return (View k forward mask))%outcome.

(** *** [Thinning] *)

Fixpoint every {A} (step skip : nat) (l : list A) : list A :=
  match l with
  | [] => []
  | x :: l' =>
      match skip with
      | 0 => x :: every step (step - 1) l'
      | S skip' => every step skip' l'
      end
  end.

(** [l[::t]] *)
Definition stride {A} (t : Z) (l : list A) : outcome (list A) :=
  if (t =? 0)%Z then Raise (ValueError "slice step cannot be zero")
  else if (0 <? t)%Z then Return (every (Z.to_nat t) 0 l)
  else Return (every (Z.to_nat (- t)) 0 (rev l)).

(** [a.reshape((rows, cols))] of a flat array, as the list of its rows. *)
Fixpoint chunks {A} (rows cols : nat) (l : list A) : list (list A) :=
  match rows with
  | 0 => []
  | S rows' => take cols l :: chunks rows' cols (drop cols l)
  end.

Definition reshape2 {A} (l : list A) (shape : list Z) : outcome (list (list A)) :=
  match shape with
  | [r; c] =>
      if bool_decide (0 ≤ r)%Z && bool_decide (0 ≤ c)%Z &&
         bool_decide (Z.of_nat (length l) = r * c)%Z
      then Return (chunks (Z.to_nat r) (Z.to_nat c) l)
      else Raise (ValueError "cannot reshape array")
  | _ => Raise (ValueError "cannot reshape array")
  end.

(** [a[::t, ::t].flatten()] *)
Definition thin {A} (t : Z) (a : list (list A)) : outcome (list A) :=
  (rows <- stride t a ;;
   rows' <- foldr (λ r acc, r' <- stride t r ;; acc' <- acc ;; Return (r' :: acc'))
              (Return []) rows ;;
   Return (concat rows'))%outcome.

(** [x in a] for a float and an array of floats. *)
Definition float_in (x : float) (a : list float) : bool :=
  existsb (λ y, SFeqb y x) a.

(** The one-dimensional array of coordinates of a forward dataset. *)
Definition as_vector (a : nd) : outcome (list float) :=
  match a with
  | Arr rows =>
      if forallb (λ r, match r with Scalar _ => true | Arr _ => false end) rows
      then Return (flatten a)
      else Raise TypeError
  | Scalar _ => Raise TypeError
  end.

(** [Thinning.__init__].  The coordinates of [forward] are taken to be
    one-dimensional, as everywhere in [Masked]. *)
Definition thinning_init (forward : Dataset) (thinning : option Z) (method : string)
    : outcome Dataset :=
  (mask <- match thinning with
           | Some t =>
               let shape := field_shape forward in
               (if bool_decide (length shape ≠ 2)
                then Raise (ValueError "Thinning only works latitude/longitude fields")
                else Return tt) ;;;
               a <- latitudes forward ;;
               forward_latitudes <- as_vector a ;;
               b <- longitudes forward ;;
               forward_longitudes <- as_vector b ;;
               lat2 <- reshape2 forward_latitudes shape ;;
               lon2 <- reshape2 forward_longitudes shape ;;
               lats <- thin t lat2 ;;
               lons <- thin t lon2 ;;
               Return (Some (map (λ p : float * float,
                                    float_in p.1 lats && float_in p.2 lons)
                               (zip forward_latitudes forward_longitudes)))
           | None => Return None
           end ;;
   masked_init (KThinning thinning method) forward mask)%outcome.

(** [Thinning.mutate] and [TrimEdge.mutate].  [Dataset.mutate], the
    method that [super().mutate()] reaches and that other datasets
    have, is defined outside this file: it is the parameter
    [base_mutate], applied to the object itself.  The [edge] of a
    [TrimEdge] is a list once [__init__] has returned, never [None]. *)
Fixpoint mutate (base_mutate : Dataset → Dataset) (d : Dataset) : Dataset :=
  match d with
  | View (KThinning None _) forward _ => mutate base_mutate forward
  | _ => base_mutate d
  end.

(** *** [MaskFromDataset] *)

(** The dataset that [open_dataset(dataset)] returns, as far as the
    constructor reads it: its variables, and [data[0, index, 0, :]] for
    each of them. *)
Record mask_dataset := {
  md_variables : list string;
  md_data : list (list float)
}.

(** [variables.index(field_name)] *)
Fixpoint index_of (name : string) (l : list string) : option nat :=
  match l with
  | [] => None
  | x :: l' => if String.eqb x name then Some 0 else S <$> index_of name l'
  end.

Definition mask_from_dataset_init (forward : Dataset) (dataset : mask_dataset)
    (field_name : string) (threshold : float) : outcome Dataset :=
  match index_of field_name (md_variables dataset) with
  | None => Raise (ValueError "is not a variable in the mask dataset")
  | Some index =>
      match md_data dataset !! index with
      | None => Raise IndexError
      | Some row =>
          masked_init (KMaskFromDataset field_name threshold) forward
            (Some (map (λ v, SFltb threshold v) row))
      end
  end.

(** *** [Cropping]

    [cropping_mask] belongs to the module [..grids]; the mask it
    returns for the coordinates of [forward] is an argument here. *)
Definition cropping_init (forward : Dataset) (area : list float)
    (cropping_mask : list bool) : outcome Dataset :=
  masked_init (KCropping area) forward (Some cropping_mask).

(** *** [TrimEdge] *)

Inductive edge_arg : Type :=
| EdgeInt (e : Z)
| EdgeList (l : list Z).

(** A bound of a Python slice over [n] elements. *)
Definition slice_bound (i : Z) (n : nat) : nat :=
  if (i <? 0)%Z then Z.to_nat (Z.max 0 (Z.of_nat n + i))
  else Z.to_nat (Z.min i (Z.of_nat n)).

(** The mask that the four slice assignments leave at row [r] and
    column [c] of a grid of [rows] by [cols] points. *)
Definition trimmed (e : list Z) (rows cols r c : nat) : bool :=
  negb (bool_decide (r < slice_bound (nth 0 e 0%Z) rows)
        || bool_decide (slice_bound (- nth 1 e 0%Z) rows ≤ r)
        || bool_decide (c < slice_bound (nth 2 e 0%Z) cols)
        || bool_decide (slice_bound (- nth 3 e 0%Z) cols ≤ c)).

Definition trim_edge_init (forward : Dataset) (edge : edge_arg) : outcome Dataset :=
  (e <- match edge with
        | EdgeInt n => Return (replicate 4 n)
        | EdgeList l =>
            if bool_decide (length l = 4) then Return l
            else Raise (ValueError "'edge' must be an integer or a list of 4 integers")
        end ;;
   match field_shape forward with
   | [x; y] =>
       if bool_decide (x ≤ nth 0 e 0 + nth 1 e 0)%Z then
         Raise (ValueError "Too much triming of the first grid dimension, resulting in an empty dataset")
       else if bool_decide (y ≤ nth 2 e 0 + nth 3 e 0)%Z then
         Raise (ValueError "Too much triming of the second grid dimension, resulting in an empty dataset")
       else
         let rows := Z.to_nat x in
         let cols := Z.to_nat y in
         masked_init (KTrimEdge e) forward
           (Some (flat_map (λ r, map (trimmed e rows cols r) (seq 0 cols)) (seq 0 rows)))
   | _ => Raise (ValueError "TrimEdge only works on regular grids")
   end)%outcome.

End Masked.

(* ------------------------------------------------------------------ *)
(** ** Sample data                                                      *)
(* ------------------------------------------------------------------ *)

(** Small datasets, stores and collaborators on which the functions
    above run to a value. *)
Module Samples.
Import Persistent Loaders.

(** Three days of January 2020. *)
Definition day1 : date := 1577836800%Z.
Definition day2 : date := 1577923200%Z.
Definition day3 : date := 1578009600%Z.

(** *** A partial store *)

(** A stand-in for SHA-256: the first 32 bytes of the string, padded
    with zeros. *)
Definition prefix_hasher : hasher :=
  Hasher (λ s, map (λ i, nth i (String.list_byte_of_string s) x00) (seq 0 32))
         (λ s, eq_trans (length_map _ _) (length_seq _ _)).

Definition empty_store : PersistentDict (K := string) (V := nat) :=
  init "dataset.zarr.tmp_data/statistics" true None.

(** *** A build of three groups, of which this worker owns two *)

Definition a_result (g : list date) : result :=
  {| result_dates := g;
     get_cube :=
       {| extended_user_shape := [length g; 1; 1; 2];
          valid_datetime := g;
          iterate_cubelets :=
            map (λ i, {| coords := [i; 0; 0]; to_numpy := [of_int 1; of_int 2] |})
                (seq 0 (length g)) |} |}.

Definition no_stats : stats := {| stats_shape := (0, 0); stats_rows := [] |}.

Definition two_of_three : collaborators :=
  {| groups := [[day1; day2]; [day3]; [(day3 + 86400)%Z]];
     chunk_filter := λ i, bool_decide (i < 2);
     input_select := λ g, Return (a_result g);
     check_data_values := λ _ _ _, Return tt;
     compute_statistics := λ _ _ _, Return no_stats;
     io_error := λ _, false |}.

(** The same build over an array store that refuses every write. *)
Definition store_down : collaborators :=
  {| groups := groups two_of_three;
     chunk_filter := chunk_filter two_of_three;
     input_select := input_select two_of_three;
     check_data_values := check_data_values two_of_three;
     compute_statistics := compute_statistics two_of_three;
     io_error := λ _, true |}.

Definition fresh_loader : ContentLoader :=
  {| dates := [day1; day2; day3; (day3 + 86400)%Z];
     variables_names := ["t"]; allow_nans := [];
     the_registry := create [2; 1; 1]; data_array := ∅;
     tmp_statistics := []; tmp_provenance := []; trace := [] |}.

(** *** Statistics adders *)

(** A registry whose unsynchronised view is ahead of the durable flags:
    the view says both groups are built, the durable array does not. *)
Definition stale_registry : registry :=
  {| flags := [true; false]; unsynced_flags := [true; true];
     history := []; provenance := [] |}.

(** A registry on which the view lags: the second group is built by
    now, the view does not show it yet. *)
Definition lagging_registry : registry :=
  {| flags := [true; true]; unsynced_flags := [true; false];
     history := []; provenance := [] |}.

Definition no_attrs : zattrs :=
  {| variables_with_nans := None;
     statistics_start_date := None; statistics_end_date := None |}.

Definition a_summary : Summary :=
  {| s_minimum := [of_int 5]; s_maximum := [of_int 7]; s_mean := [of_int 6];
     s_count := [2%Z]; s_sums := [of_int 12]; s_squares := [of_int 74];
     s_stdev := [of_int 1]; s_variables_names := ["t"]; s_has_nans := [false] |}.

Definition an_adder (r : registry) : StatisticsAdder :=
  {| sa_path := "dataset.zarr"; sa_dates := []; sa_missing_dates := [];
     user_statistics_start := None; user_statistics_end := None;
     statistics_output := None; sa_attrs := no_attrs;
     sa_registry := r; sa_arrays := ∅; sa_warnings := [] |}.

(** Resolvers on exact timestamps: a bound that is a timestamp
    resolves to itself. *)
Definition exact_resolvers : resolvers :=
  {| as_first_date := λ u _, match u with
                             | Some (UDatetime d) => Return d
                             | _ => Raise CollaboratorError
                             end;
     as_last_date := λ u _, match u with
                            | Some (UDatetime d) => Return d
                            | _ => Raise CollaboratorError
                            end |}.

(** Statistics asked from the first to the third day, on a dataset of
    these three days. *)
Definition bounded_adder : StatisticsAdder :=
  {| sa_path := "dataset.zarr";
     sa_dates := [day1; day2; day3]; sa_missing_dates := [];
     user_statistics_start := Some (UDatetime day1);
     user_statistics_end := Some (UDatetime day3);
     statistics_output := Some "-";
     sa_attrs := {| variables_with_nans := Some (Some ["t"]);
                    statistics_start_date := Some day1;
                    statistics_end_date := Some day3 |};
     sa_registry := create [3]; sa_arrays := ∅; sa_warnings := [] |}.

(** *** Partial records and their aggregation *)

Definition cell_of (v : Z) : cell :=
  {| minimum := of_int v; maximum := of_int v; sums := of_int v;
     squares := of_int (v * v); count := 1; has_nans := false |}.

(** The record of one date with the single value [v] of one variable,
    and the record of dates without data. *)
Definition one_date (i : nat) (d : date) (v : Z) : list date * partial :=
  ([d], {| p_dates := [d]; p_missing_dates := []; p_index := i;
           p_stats := Some {| stats_shape := (1, 1);
                              stats_rows := [[cell_of v]] |} |}).

Definition missing_only (i : nat) (ds : list date) : list date * partial :=
  (ds, {| p_dates := []; p_missing_dates := ds; p_index := i; p_stats := None |}).

Definition store_of (records : list (string * (list date * partial)))
    : PersistentDict :=
  init "dataset.zarr.tmp_data/additions" true (Some (list_to_map records)).

Definition loader_of (ds : list date) records : GenericAdditionsLoader :=
  {| ga_path := "dataset.zarr"; ga_dates := ds; ds_variables := ["t"];
     ga_attrs := no_attrs; _variables_with_nans := None;
     tmp_storage := store_of records;
     summary := None; ga_registry := create [1; 1; 1];
     ga_arrays := ∅; ga_warnings := [] |}.

Definition agreeing : additions_collaborators :=
  {| epsilon := fp_zero; reference_is_close := λ _, true |}.

(** Two dates with the values 5 and 7. *)
Definition two_records : GenericAdditionsLoader :=
  loader_of [day1; day2]
    [("a.pickle", one_date 0 day1 5); ("b.pickle", one_date 1 day2 7)].

(** The second date has no record. *)
Definition one_record_short : GenericAdditionsLoader :=
  loader_of [day1; day2] [("a.pickle", one_date 0 day1 5)].

(** Three dates; the third is reported missing by two records. *)
Definition missing_twice : GenericAdditionsLoader :=
  loader_of [day1; day2; day3]
    [("a.pickle", one_date 1 day2 5);
     ("b.pickle", missing_only 0 [day1; day3]);
     ("c.pickle", missing_only 2 [day3])].

(** *** Grids *)

Definition three_by_three : Masked.Dataset :=
  Masked.Stored
    {| Masked.st_shape := [1; 1; 1; 9];
       Masked.st_latitudes := map of_int [0; 0; 0; 1; 1; 1; 2; 2; 2]%Z;
       Masked.st_longitudes := map of_int [0; 1; 2; 0; 1; 2; 0; 1; 2]%Z;
       Masked.st_field_shape := [3; 3] |}.

(** The mask of a view. *)
Definition mask_of (d : outcome Masked.Dataset) : option (list bool) :=
  match d with
  | Return (Masked.View _ _ m) => m
  | _ => None
  end.

Definition two_points : Masked.Dataset :=
  Masked.Stored
    {| Masked.st_shape := [1; 1; 1; 2];
       Masked.st_latitudes := [of_int 10; of_int 20];
       Masked.st_longitudes := [of_int 30; of_int 40];
       Masked.st_field_shape := [1; 2] |}.

End Samples.

(* ================================================================== *)
(** * Part II.  Properties                                              *)
(* ================================================================== *)

#[local] Set Warnings "-clear-no-such-hyp".

(** ** The partial store *)

Section PersistentFacts.
Import Persistent.
Context {K V : Type}.
Variable str : K → string.
Variable H : hasher.
Variable pid hostname : string.

Local Abbreviation file_name := (file_name str H).
Local Abbreviation tmp_name := (tmp_name str H pid hostname).
Local Abbreviation setitem := (setitem str H pid hostname).
Local Abbreviation PersistentDict := (@PersistentDict K V).

Lemma ends_with_app suffix s : ends_with suffix (s +:+ suffix) = true.
Proof.
  induction s as [|a s IH].
  - change ("" +:+ suffix) with suffix.
    destruct suffix as [|a t]; [reflexivity|].
    unfold ends_with; fold ends_with. by rewrite String.eqb_refl.
  - simpl. rewrite IH. apply orb_true_r.
Qed.

Lemma append_neq s t : t ≠ "" → s +:+ t ≠ s.
Proof.
  intros Ht. induction s as [|a s IH]; simpl; [done|].
  intros E. injection E as E. done.
Qed.

Lemma hex_digit_not_dot n : hex_digit n ≠ "."%char.
Proof.
  unfold hex_digit.
  do 16 (destruct n as [|n]; [simpl; discriminate|]).
  simpl. destruct n; discriminate.
Qed.

Lemma hexdigest_length d : String.length (hexdigest d) = 2 * length d.
Proof. induction d as [|b d IH]; simpl; [done|]. rewrite IH. lia. Qed.

Lemma hidden_cons c s : c ≠ "."%char → hidden (String c s) = false.
Proof.
  intros Hc. destruct c as [[] [] [] [] [] [] [] []];
    first [reflexivity | by destruct Hc].
Qed.

Lemma hidden_file_name key : hidden (file_name key) = false.
Proof.
  unfold Persistent.file_name.
  pose proof (sha256_digest_size H (str key)) as Hlen.
  destruct (sha256 H (str key)) as [|b d]; [done|].
  change (hexdigest (b :: d) +:+ ".pickle")
    with (String (hex_digit (Byte.to_nat b / 16))
            (String (hex_digit (Byte.to_nat b mod 16)) (hexdigest d) +:+ ".pickle")).
  apply hidden_cons, hex_digit_not_dot.
Qed.

Lemma glob_file_name key : glob_pickle (file_name key) = true.
Proof.
  unfold glob_pickle. rewrite hidden_file_name. simpl.
  apply ends_with_app.
Qed.

Lemma tmp_name_neq key : tmp_name key ≠ file_name key.
Proof.
  unfold Persistent.tmp_name.
  intros E. eapply (append_neq (file_name key)); [|exact E]. done.
Qed.

(** What one call of [__setitem__] does to an existing directory. *)
Lemma setitem_existing key elt (d : PersistentDict) fs :
  files d = Some fs →
  ∃ d' : PersistentDict, setitem key elt d = Return d' ∧
        dirname d' = dirname d ∧
        files d' = Some (<[file_name key := (key, elt)]> (delete (tmp_name key) fs)) ∧
        (is_Some (fs !! file_name key) →
           LogRecord WARNING (os_path_join (dirname d) (file_name key) +:+ " already exists")
             ∈ log d').
Proof.
  intros Hfs. unfold Persistent.setitem. rewrite Hfs.
  set (d1 := if bool_decide _ then _ else _).
  assert (files d1 = Some fs) as Hd1 by (unfold d1; case_bool_decide; done).
  rewrite Hd1. rewrite lookup_insert_eq. rewrite delete_insert_eq.
  eexists. split; [done|]. simpl. split_and!.
  - unfold d1. by case_bool_decide.
  - done.
  - intros Hsome. unfold d1. rewrite bool_decide_eq_true_2 by done.
    simpl. set_solver.
Qed.

Lemma pickles_insert key elt (fs : gmap string (K * V)) :
  pickles (<[file_name key := (key, elt)]> fs)
  ≡ₚ (file_name key, (key, elt)) :: pickles (delete (file_name key) fs).
Proof.
  unfold pickles.
  rewrite <- (insert_delete_eq fs).
  rewrite map_filter_insert_True by apply glob_file_name.
  rewrite map_to_list_insert; [done|].
  rewrite map_lookup_filter_None. left. apply lookup_delete_eq.
Qed.

(** C7. [__setitem__] stores the pair [(key, value)] in the file named
    by the hexadecimal SHA-256 of [str(key)], 64 digits, with the
    extension [.pickle].  On an existing directory a second write of the same key
    returns as the first does, logs the warning that the file already
    exists, and replaces the file: [items()] then yields the pair with
    the second value, exactly once for that file, next to the pickles
    of the other files, whatever the first value was. *)
Theorem setitem_last_write_wins key v1 v2 (d : PersistentDict) fs :
  files d = Some fs →
  ∃ (d1 d2 : PersistentDict) fs1 fs2,
    String.length (hexdigest (sha256 H (str key))) = 64 ∧
    setitem key v1 d = Return d1 ∧ files d1 = Some fs1 ∧
    fs1 !! (hexdigest (sha256 H (str key)) +:+ ".pickle") = Some (key, v1) ∧
    setitem key v2 d1 = Return d2 ∧ files d2 = Some fs2 ∧
    fs2 !! (hexdigest (sha256 H (str key)) +:+ ".pickle") = Some (key, v2) ∧
    dom fs2 = dom fs1 ∧
    LogRecord WARNING (os_path_join (dirname d) (file_name key) +:+ " already exists")
      ∈ log d2 ∧
    ∃ l, items d2 = Return l ∧
         (key, v2) ∈ l ∧
         l ≡ₚ (key, v2) :: (pickles (delete (file_name key) (delete (tmp_name key) fs))).*2.
Proof.
  intros Hfs.
  destruct (setitem_existing key v1 d fs Hfs) as (d1 & E1 & Hn1 & Hf1 & _).
  destruct (setitem_existing key v2 d1 _ Hf1) as (d2 & E2 & Hn2 & Hf2 & Hw).
  pose proof (tmp_name_neq key) as Hne.
  set (fs0 := delete (tmp_name key) fs) in *.
  assert (<[file_name key := (key, v2)]>
            (delete (tmp_name key) (<[file_name key := (key, v1)]> fs0))
          = <[file_name key := (key, v2)]> fs0) as Hfs2.
  { rewrite delete_insert_ne by done.
    unfold fs0. rewrite delete_delete_eq. apply insert_insert_eq. }
  rewrite Hfs2 in Hf2.
  exists d1, d2, (<[file_name key := (key, v1)]> fs0), (<[file_name key := (key, v2)]> fs0).
  split_and!; try done.
  - by rewrite hexdigest_length, sha256_digest_size.
  - apply lookup_insert_eq.
  - apply lookup_insert_eq.
  - rewrite !dom_insert_L. done.
  - rewrite <- Hn1. apply Hw. rewrite lookup_insert_eq. eauto.
  - assert (Hp := pickles_insert key v2 fs0).
    unfold items. rewrite Hf2. simpl.
    rewrite bool_decide_eq_true_2; last first.
    { rewrite Hp. simpl. lia. }
    simpl. eexists. split; [done|]. split.
    + rewrite Hp. simpl. set_solver.
    + rewrite Hp. simpl. done.
Qed.

End PersistentFacts.

(** ** The build loop *)

Section BuildFacts.
Import Loaders.
Variable C : collaborators.

Local Abbreviation flag_after_flush := (flag_after_flush C).

Lemma quiet_nil : quiet [].
Proof. intros j Hj. by apply not_elem_of_nil in Hj. Qed.

Lemma quiet_cons e evs : (∀ j, e ≠ EvSetFlag j) → quiet evs → quiet (e :: evs).
Proof.
  intros He Hq j Hj. apply elem_of_cons in Hj as [Hj|Hj].
  - by apply (He j).
  - by apply (Hq j).
Qed.

Lemma quiet_app a b : quiet a → quiet b → quiet (a ++ b).
Proof.
  intros Ha Hb j Hj. apply elem_of_app in Hj as [Hj|Hj].
  - by apply (Ha j).
  - by apply (Hb j).
Qed.

Lemma unflushed_cons e evs :
  (∀ g, e ≠ EvFlush g) → unflushed evs → unflushed (e :: evs).
Proof.
  intros He Hq j Hj. apply elem_of_cons in Hj as [Hj|Hj].
  - by apply (He j).
  - by apply (Hq j).
Qed.

Lemma unflushed_app a b : unflushed a → unflushed b → unflushed (a ++ b).
Proof.
  intros Ha Hb j Hj. apply elem_of_app in Hj as [Hj|Hj].
  - by apply (Ha j).
  - by apply (Hb j).
Qed.

Lemma staged_quiet evs :
  (∀ e, e ∈ evs → ∃ c, e = EvStage c) → quiet evs ∧ unflushed evs.
Proof.
  intros Hs. split; intros j Hj; by destruct (Hs _ Hj).
Qed.

#[local] Hint Resolve quiet_nil : core.

Lemma load_cube_steps cs array s :
  ∃ evs, trace (final (load_cube C cs array s)) = trace s ++ evs ∧
         (∀ e, e ∈ evs → ∃ c, e = EvStage c) ∧
         the_registry (final (load_cube C cs array s)) = the_registry s ∧
         data_array (final (load_cube C cs array s)) = data_array s ∧
         dates (final (load_cube C cs array s)) = dates s ∧
         (∀ array' s', load_cube C cs array s = Done array' s' →
                       indexes array' = indexes array).
Proof.
  revert array s. induction cs as [|c cs IH]; intros array s; simpl.
  - exists []. rewrite app_nil_r. split_and!; try done.
    + by intros e ?%not_elem_of_nil.
    + by intros ?? [= <- _].
  - destruct (load_cubelet C s c array) as [array1|e] eqn:Hc; simpl.
    + destruct (IH array1 (emit (EvStage (coords c)) s))
        as (evs & Ht & Hs & Hr & Hd & Hp & Hi).
      exists (EvStage (coords c) :: evs). rewrite Ht, Hr, Hd, Hp. simpl.
      rewrite <- app_assoc. split_and!; try done.
      * intros e [->|He]%elem_of_cons; eauto.
      * intros array' s' Hdone. rewrite (Hi _ _ Hdone).
        unfold load_cubelet in Hc. repeat case_match; try done.
        unfold obind, vca_setitem in Hc. repeat case_match; by simplify_eq.
    + exists []. rewrite app_nil_r. split_and!; try done.
      by intros e0 ?%not_elem_of_nil.
Qed.

(** What [load_result] records: no flag is set, and a return comes
    right after a flush that the array store accepted. *)
Lemma load_result_steps r s :
  ∃ evs, trace (final (load_result C r s)) = trace s ++ evs ∧
         quiet evs ∧
         the_registry (final (load_result C r s)) = the_registry s ∧
         dates (final (load_result C r s)) = dates s ∧
         (unflushed evs → data_array (final (load_result C r s)) = data_array s) ∧
         (∀ s', load_result C r s = Done tt s' →
                io_error C (dates_to_indexes (dates s) (result_dates r)) = false ∧
                ∃ evs', evs = evs' ++ [EvFlush (result_dates r)] ∧ unflushed evs').
Proof.
  unfold load_result, rbind, lift.
  destruct (extended_user_shape (get_cube r) !! 0) as [n|]; simpl; last first.
  { exists []. by rewrite app_nil_r. }
  destruct (py_assert (bool_decide (n = length (result_dates r))) _); simpl; last first.
  { exists []. by rewrite app_nil_r. }
  case_bool_decide as Hdates; simpl; last first.
  { exists []. by rewrite app_nil_r. }
  set (array := {| vca_shape := _ |}).
  destruct (load_cube_steps (iterate_cubelets (get_cube r)) array s)
    as (evs & Ht & Hs & Hr & Hd & Hp & Hi).
  destruct (staged_quiet evs Hs) as [Hq Hu].
  destruct (load_cube C _ array s) as [array' s1|e s1]; simpl in *; last first.
  { by exists evs. }
  destruct (compute_statistics C _ _ _) as [st|e]; simpl; last first.
  { by exists evs. }
  unfold vca_flush. rewrite (Hi array' s1 eq_refl). simpl. rewrite ?Hdates.
  destruct (io_error C _) eqn:Hio; simpl.
  { exists (evs ++ [EvStatistics (result_dates r)]).
    rewrite Ht, <- !app_assoc. split_and!; try done.
    apply quiet_app; [done|]. by apply quiet_cons. }
  destruct (bulk _ _ _) as [arr|err]; simpl.
  - exists (evs ++ [EvStatistics (result_dates r); EvFlush (result_dates r)]).
    rewrite Ht, <- !app_assoc. split_and!; try done.
    + apply quiet_app; [done|]. by repeat apply quiet_cons.
    + intros Hu'. exfalso. apply (Hu' (result_dates r)). set_solver.
    + intros s' _. split; [done|]. exists (evs ++ [EvStatistics (result_dates r)]).
      rewrite <- app_assoc. split; [done|].
      apply unflushed_app; [done|]. apply unflushed_cons; [done|].
      by intros g ?%not_elem_of_nil.
  - exists (evs ++ [EvStatistics (result_dates r)]).
    rewrite Ht, <- !app_assoc. split_and!; try done.
    apply quiet_app; [done|]. by apply quiet_cons.
Qed.

(** [load_group] without the monad. *)
Lemma load_group_unfold i g s :
  load_group C i g s =
  if negb (chunk_filter C i) then Done tt s else
  match flags (the_registry s) !! i with
  | None => Failed IndexError s
  | Some true => Done tt (emit (EvSkip i) s)
  | Some false =>
      match g with
      | [] => Failed IndexError s
      | _ :: _ =>
          match input_select C g with
          | Raise e => Failed e s
          | Return r =>
              if bool_decide (result_dates r = g) then
                match load_result C r (emit (EvSelect g) s) with
                | Failed e s1 => Failed e s1
                | Done _ s1 =>
                    match set_flag i (the_registry s1) with
                    | Raise e => Failed e s1
                    | Return reg => Done tt (emit (EvSetFlag i) (with_registry reg s1))
                    end
                end
              else Failed (AssertionError "dates") (emit (EvSelect g) s)
          end
      end
  end.
Proof.
  unfold load_group. destruct (chunk_filter C i); simpl; [|done].
  unfold rbind, lift, get_flag.
  destruct (flags (the_registry s) !! i) as [[]|]; simpl; try done.
  destruct g as [|d g']; simpl; [done|].
  destruct (input_select C (d :: g')) as [r|e]; simpl; [|done].
  case_bool_decide; simpl; [|done].
  destruct (load_result C r _) as [[] s1|e s1]; simpl; done.
Qed.

(** The four ways in which one turn of the loop of [load] ends: the
    group is not owned; it is flagged and skipped; it is loaded, flushed
    and then flagged; or an exception ends the run before any flag is
    set. *)
Lemma load_group_cases i g s :
  (chunk_filter C i = false ∧ load_group C i g s = Done tt s)
  ∨ (chunk_filter C i = true ∧ flags (the_registry s) !! i = Some true ∧
     load_group C i g s = Done tt (emit (EvSkip i) s))
  ∨ (chunk_filter C i = true ∧ flags (the_registry s) !! i = Some false ∧
     io_error C (dates_to_indexes (dates s) g) = false ∧
     ∃ evs s', load_group C i g s = Done tt s' ∧
               trace s' = trace s ++ evs ++ [EvFlush g; EvSetFlag i] ∧
               quiet evs ∧ dates s' = dates s ∧
               flags (the_registry s') = <[i := true]> (flags (the_registry s)))
  ∨ (chunk_filter C i = true ∧ flags (the_registry s) !! i ≠ Some true ∧
     ∃ e evs s', load_group C i g s = Failed e s' ∧
                 trace s' = trace s ++ evs ∧ quiet evs ∧
                 the_registry s' = the_registry s).
Proof.
  rewrite load_group_unfold.
  destruct (chunk_filter C i) eqn:Hown; simpl; [|by left].
  right.
  destruct (flags (the_registry s) !! i) as [[]|] eqn:Hflag; simpl.
  - by left.
  - right.
    destruct g as [|d g']; simpl.
    { right. split_and!; try done. exists IndexError, (@nil event), s.
      by rewrite app_nil_r. }
    destruct (input_select C (d :: g')) as [r|e]; simpl; last first.
    { right. split_and!; try done. exists e, (@nil event), s.
      by rewrite app_nil_r. }
    case_bool_decide as Hdates; simpl; last first.
    { right. split_and!; try done. eexists _, [EvSelect (d :: g')], _.
      split_and!; try done. by apply quiet_cons. }
    destruct (load_result_steps r (emit (EvSelect (d :: g')) s))
      as (evs & Ht & Hq & Hr & Hds & _ & Hdone).
    destruct (load_result C r _) as [[] s1|e s1]; simpl in *.
    + left. destruct (Hdone s1 eq_refl) as (Hio & evs' & -> & Hu).
      unfold set_flag. rewrite Hr. simpl.
      rewrite bool_decide_eq_true_2 by (by eapply lookup_lt_Some).
      rewrite Hdates in Hio. split_and!; try done.
      eexists (EvSelect (d :: g') :: evs'), _.
      split_and!; try done.
      * simpl. by rewrite Ht, Hdates, <- !app_assoc.
      * apply quiet_cons; [done|]. intros j Hj. apply (Hq j).
        apply elem_of_app. by left.
    + right. split_and!; try done. eexists e, (EvSelect (d :: g') :: evs), s1.
      rewrite Ht, <- app_assoc. split_and!; try done.
      by apply quiet_cons.
  - right. right. split_and!; try done. exists IndexError, (@nil event), s.
    by rewrite app_nil_r.
Qed.

Lemma quiet_flag_after_flush evs : quiet evs → flag_after_flush evs.
Proof.
  intros Hq pre j post ->. exfalso. apply (Hq j).
  apply elem_of_app. right. by apply elem_of_cons; left.
Qed.

Lemma flag_after_flush_app a b :
  flag_after_flush a → flag_after_flush b → flag_after_flush (a ++ b).
Proof.
  intros Ha Hb pre j post E.
  apply app_eq_app in E as [l [[-> E]|[-> E]]].
  - destruct l as [|e l]; simpl in E.
    + destruct (Hb [] j post) as (pre' & g & Hpre & _); [by rewrite <- E|].
      by destruct pre'.
    + simplify_eq/=. by apply (Ha pre j l).
  - destruct (Hb l j post E) as (pre' & g & -> & Hg).
    exists (a ++ pre'), g. by rewrite <- app_assoc.
Qed.

Lemma flag_after_flush_block evs i g :
  quiet evs → groups C !! i = Some g →
  flag_after_flush (evs ++ [EvFlush g; EvSetFlag i]).
Proof.
  intros Hq Hg pre j post E.
  apply app_eq_app in E as [l [[-> E]|[-> E]]].
  - destruct l as [|e l]; simplify_eq/=.
    exfalso. apply (Hq j). apply elem_of_app. right. by apply elem_of_cons; left.
  - destruct l as [|e [|e' l]]; simplify_eq/=.
    + by exists evs, g.
    + by destruct l.
Qed.

(** The loop of [load]: the order of the steps, and the flags that
    change. *)
Lemma load_groups_steps gs : ∀ k s,
  (∀ idx g, gs !! idx = Some g → groups C !! (k + idx) = Some g) →
  ∃ evs, trace (final (load_groups C k gs s)) = trace s ++ evs ∧
         flag_after_flush evs ∧
         (∀ i, flags (the_registry (final (load_groups C k gs s))) !! i
               ≠ flags (the_registry s) !! i →
               ∃ g, groups C !! i = Some g ∧ EvSetFlag i ∈ evs ∧
                    io_error C (dates_to_indexes (dates s) g) = false).
Proof.
  induction gs as [|g gs IH]; intros k s Hgs; simpl.
  { exists []. rewrite app_nil_r. split_and!; try done.
    by apply quiet_flag_after_flush. }
  assert (groups C !! k = Some g) as Hk.
  { rewrite <- (Nat.add_0_r k). by apply Hgs. }
  assert (∀ idx g', gs !! idx = Some g' → groups C !! (S k + idx) = Some g') as Hgs'.
  { intros idx g' Hl. replace (S k + idx) with (k + S idx) by lia. by apply Hgs. }
  unfold rbind.
  destruct (load_group_cases k g s)
    as [(_ & ->)|[(_ & _ & ->)|[(_ & Hf & Hio & evs & s' & -> & Ht & Hq & Hds & Hfl)
       |(_ & _ & e & evs & s' & -> & Ht & Hq & Hr)]]]; simpl.
  - apply IH, Hgs'.
  - destruct (IH (S k) (emit (EvSkip k) s) Hgs') as (evs & Ht & Ho & Hc).
    exists (EvSkip k :: evs). rewrite Ht. simpl. rewrite <- app_assoc.
    split_and!; try done.
    + apply (flag_after_flush_app [EvSkip k]); [|done].
      apply quiet_flag_after_flush. by apply quiet_cons.
    + intros i Hi. destruct (Hc i Hi) as (g' & ? & ? & ?).
      exists g'. split_and!; try done. by apply elem_of_cons; right.
  - destruct (IH (S k) s' Hgs') as (evs2 & Ht2 & Ho & Hc).
    exists ((evs ++ [EvFlush g; EvSetFlag k]) ++ evs2).
    rewrite Ht2, Ht, <- !app_assoc. split_and!; try done.
    + rewrite app_assoc. apply flag_after_flush_app; [|done].
      by apply flag_after_flush_block.
    + intros i Hi. destruct (decide (i = k)) as [->|Hne].
      * exists g. split_and!; try done.
        rewrite !elem_of_app, !elem_of_cons. tauto.
      * destruct (Hc i) as (g' & ? & ? & Hio').
        { by rewrite Hfl, list_lookup_insert_ne. }
        exists g'. rewrite <- Hds. split_and!; try done.
        rewrite !elem_of_app. tauto.
  - exists evs. rewrite Hr. split_and!; try done.
    by apply quiet_flag_after_flush.
Qed.

(** A loop that returns leaves every owned group flagged, and no flag
    is ever reset. *)
Lemma load_groups_done gs : ∀ k s s',
  load_groups C k gs s = Done tt s' →
  (∀ idx g, gs !! idx = Some g → chunk_filter C (k + idx) = true →
            flags (the_registry s') !! (k + idx) = Some true) ∧
  (∀ j, flags (the_registry s) !! j = Some true →
        flags (the_registry s') !! j = Some true).
Proof.
  induction gs as [|g gs IH]; intros k s s'; simpl.
  { intros [= <-]. split; [|done]. intros idx g Hl; by rewrite lookup_nil in Hl. }
  unfold rbind.
  destruct (load_group_cases k g s)
    as [(Hown & ->)|[(_ & Hf & ->)|[(_ & Hf & _ & evs & s1 & -> & _ & _ & _ & Hfl)
       |(_ & _ & e & evs & s1 & -> & _)]]]; simpl; [| | |done].
  - intros Hrest. destruct (IH _ _ _ Hrest) as [Hall Hmono].
    split; [|done]. intros [|idx] g' Hl Hown'.
    + rewrite Nat.add_0_r in Hown'. congruence.
    + replace (k + S idx) with (S k + idx) in * by lia. by eapply Hall.
  - intros Hrest. destruct (IH _ _ _ Hrest) as [Hall Hmono].
    split; [|done]. intros [|idx] g' Hl Hown'.
    + rewrite Nat.add_0_r. by apply Hmono.
    + replace (k + S idx) with (S k + idx) in * by lia. by eapply Hall.
  - intros Hrest. destruct (IH _ _ _ Hrest) as [Hall Hmono].
    assert (k < length (flags (the_registry s))) as Hlt by (by eapply lookup_lt_Some).
    split.
    + intros [|idx] g' Hl Hown'.
      * rewrite Nat.add_0_r. apply Hmono. rewrite Hfl.
        by apply list_lookup_insert_eq.
      * replace (k + S idx) with (S k + idx) in * by lia. by eapply Hall.
    + intros j Hj. apply Hmono. rewrite Hfl.
      destruct (decide (k = j)) as [->|Hne].
      * by apply list_lookup_insert_eq.
      * by rewrite list_lookup_insert_ne.
Qed.

(** A loop that finds every owned group flagged skips each of them and
    touches nothing else. *)
Lemma load_groups_skip gs : ∀ k s,
  (∀ idx g, gs !! idx = Some g → chunk_filter C (k + idx) = true →
            flags (the_registry s) !! (k + idx) = Some true) →
  ∃ s' evs, load_groups C k gs s = Done tt s' ∧
            the_registry s' = the_registry s ∧
            data_array s' = data_array s ∧
            tmp_statistics s' = tmp_statistics s ∧
            tmp_provenance s' = tmp_provenance s ∧
            trace s' = trace s ++ evs ∧
            (∀ e, e ∈ evs → ∃ i, e = EvSkip i) ∧
            (∀ idx g, gs !! idx = Some g → chunk_filter C (k + idx) = true →
                      EvSkip (k + idx) ∈ evs).
Proof.
  induction gs as [|g gs IH]; intros k s Hflagged; simpl.
  { exists s, []. rewrite app_nil_r. split_and!; try done.
    by intros e ?%not_elem_of_nil. }
  assert (∀ idx g', gs !! idx = Some g' → chunk_filter C (S k + idx) = true →
            flags (the_registry s) !! (S k + idx) = Some true) as Hrest.
  { intros idx g' Hl. replace (S k + idx) with (k + S idx) by lia.
    by apply (Hflagged (S idx) g'). }
  pose proof (Hflagged 0 g eq_refl) as Hhead. rewrite Nat.add_0_r in Hhead.
  unfold rbind.
  destruct (load_group_cases k g s)
    as [(Hown & ->)|[(Hown & Hf & ->)|[(Hown & Hf & _)|(Hown & Hf & _)]]]; simpl.
  - destruct (IH (S k) s Hrest) as (s' & evs & -> & ? & ? & ? & ? & ? & ? & Hsk).
    exists s', evs. split_and!; try done.
    intros [|idx] g' Hl Hown'.
    + rewrite Nat.add_0_r in Hown'. congruence.
    + replace (k + S idx) with (S k + idx) in * by lia. by eapply Hsk.
  - destruct (IH (S k) (emit (EvSkip k) s) Hrest)
      as (s' & evs & -> & ? & ? & ? & ? & Ht & Hev & Hsk).
    exists s', (EvSkip k :: evs). split_and!; try done.
    + rewrite Ht. simpl. by rewrite <- app_assoc.
    + intros e [->|He]%elem_of_cons; eauto.
    + intros [|idx] g' Hl Hown'.
      * rewrite Nat.add_0_r. by apply elem_of_cons; left.
      * replace (k + S idx) with (S k + idx) in * by lia.
        apply elem_of_cons; right. by eapply Hsk.
  - rewrite (Hhead Hown) in Hf. done.
  - by destruct Hf; apply Hhead.
Qed.

(** C1.  In every run of [load], be it completed or ended by an
    exception, each [set_flag(igroup)] comes immediately after the
    [flush] of the data of group [igroup] has returned, and a flag
    changes only in that way: a group whose flag differs at the end of
    the run had its flag set, after a flush that the array store
    accepted. *)
Theorem load_sets_flag_after_flush s :
  ∃ evs, trace (final (load C s)) = trace s ++ evs ∧
    (∀ pre igroup post, evs = pre ++ EvSetFlag igroup :: post →
       ∃ pre' group, pre = pre' ++ [EvFlush group] ∧
                     groups C !! igroup = Some group) ∧
    (∀ igroup, flags (the_registry (final (load C s))) !! igroup
               ≠ flags (the_registry s) !! igroup →
       ∃ group, groups C !! igroup = Some group ∧ EvSetFlag igroup ∈ evs ∧
                io_error C (dates_to_indexes (dates s) group) = false).
Proof.
  unfold load, rbind, record_history at 1. simpl.
  set (s0 := emit _ _).
  destruct (load_groups_steps (groups C) 0 s0) as (evs & Ht & Ho & Hc); [done|].
  destruct (load_groups C 0 (groups C) s0) as [[] s1|e s1]; simpl in *.
  - exists (EvHistory "loading_data_start" :: evs ++
            [EvHistory "loading_data_end"; EvProvenance "provenance_load"]).
    rewrite Ht. simpl. rewrite <- !app_assoc. split_and!; try done.
    + change (flag_after_flush
                ([EvHistory "loading_data_start"] ++ evs ++
                 [EvHistory "loading_data_end"; EvProvenance "provenance_load"])).
      apply flag_after_flush_app; [|apply flag_after_flush_app; [done|]];
        apply quiet_flag_after_flush; by repeat apply quiet_cons.
    + intros i Hi. destruct (Hc i Hi) as (g & ? & ? & ?). exists g.
      split_and!; try done. rewrite elem_of_cons, elem_of_app. tauto.
  - exists (EvHistory "loading_data_start" :: evs).
    rewrite Ht. simpl. rewrite <- !app_assoc. split_and!; try done.
    + change (flag_after_flush ([EvHistory "loading_data_start"] ++ evs)).
      apply flag_after_flush_app; [|done].
      apply quiet_flag_after_flush; by repeat apply quiet_cons.
    + intros i Hi. destruct (Hc i Hi) as (g & ? & ? & ?). exists g.
      split_and!; try done. by apply elem_of_cons; right.
Qed.

(** C6.  A second run of [load] after one that returned, on the state
    the first one left, returns too; it skips every owned group, which
    [get_flag] reports done, before any fetch or staging (its steps are
    skips, the two history entries and the provenance record), and it
    leaves the data array, the completion flags and the partial
    statistics as they were. *)
Theorem load_twice_is_idempotent s s1 :
  load C s = Done tt s1 →
  ∃ s2 evs,
    load C s1 = Done tt s2 ∧
    data_array s2 = data_array s1 ∧
    flags (the_registry s2) = flags (the_registry s1) ∧
    tmp_statistics s2 = tmp_statistics s1 ∧
    trace s2 = trace s1 ++ evs ∧
    (∀ e, e ∈ evs → idle e) ∧
    (∀ igroup group, groups C !! igroup = Some group →
       chunk_filter C igroup = true →
       flags (the_registry s1) !! igroup = Some true ∧ EvSkip igroup ∈ evs).
Proof.
  unfold load, rbind, record_history at 1, record_history at 2. simpl.
  set (s0 := emit _ _).
  destruct (load_groups C 0 (groups C) s0) as [[] sa|e sa] eqn:Hfirst; [|done].
  simpl. intros [= <-]. simpl.
  destruct (load_groups_done _ _ _ _ Hfirst) as [Hall _].
  set (s1' := emit (EvHistory "loading_data_start") _).
  destruct (load_groups_skip (groups C) 0 s1') as
    (sb & evs & -> & Hr & Hd & Hts & Htp & Ht & Hev & Hsk).
  { intros idx g Hl Hown. by apply (Hall idx g). }
  simpl. eexists _, (EvHistory "loading_data_start" :: evs ++
            [EvHistory "loading_data_end"; EvProvenance "provenance_load"]).
  split; [done|]. simpl. rewrite Hr, Hd, Hts, Ht. simpl.
  rewrite <- !app_assoc. split_and!; try done.
  - intros e. rewrite elem_of_cons, elem_of_app, !elem_of_cons.
    unfold idle. intros [->|[He|[->|[->|?%not_elem_of_nil]]]]; eauto; done.
  - intros i g Hl Hown. split.
    + by apply (Hall i g).
    + rewrite elem_of_cons, elem_of_app. right; left. by apply (Hsk i g).
Qed.

End BuildFacts.

(** ** The statistics adder *)

Section StatisticsAdderFacts.
Import Loaders.

Lemma forallb_id_false (l : list bool) :
  forallb id l = false ↔ false ∈ l.
Proof.
  induction l as [|[] l IH]; simpl.
  - split; [done|]. by intros ?%not_elem_of_nil.
  - rewrite IH, elem_of_cons. naive_solver.
  - rewrite elem_of_cons. naive_solver.
Qed.

(** C3, as the code has it.  With [statistics_output] at [None] the
    summary goes to [write_stats_to_dataset], which first refuses
    user-specified statistics dates, then requires every flag of
    [get_flags(sync=False)], the view read without re-syncing, to be
    true.  When a flag of that view is false the call raises and leaves
    the object as it was: no array is added and the history is
    unchanged.  When the call returns, no user date was given, every
    flag of the view is true, and the eight arrays of the summary are
    in the store.  The durable flags do not enter the result. *)
Theorem write_stats_checks_unsynced_flags (st : Summary) (a : StatisticsAdder) :
  (statistics_output a = None → write_stats st a = write_stats_to_dataset st a) ∧
  (false ∈ get_flags false (sa_registry a) →
     ∃ e, write_stats_to_dataset st a = Failed e a) ∧
  (∀ a', write_stats_to_dataset st a = Done tt a' →
     truthy (user_statistics_start a) = false ∧
     truthy (user_statistics_end a) = false ∧
     forallb id (get_flags false (sa_registry a)) = true ∧
     sa_arrays a' = add_datasets st (sa_arrays a) ∧
     (∀ k v, (k, v) ∈ written st → sa_arrays a' !! k = Some v)) ∧
  (∀ e a', write_stats_to_dataset st a = Failed e a' → a' = a) ∧
  (∀ durable,
     let a2 := {| sa_path := sa_path a; sa_dates := sa_dates a; sa_missing_dates := sa_missing_dates a;
                  user_statistics_start := user_statistics_start a;
                  user_statistics_end := user_statistics_end a;
                  statistics_output := statistics_output a; sa_attrs := sa_attrs a;
                  sa_registry := {| flags := durable;
                                    unsynced_flags := unsynced_flags (sa_registry a);
                                    history := history (sa_registry a);
                                    provenance := provenance (sa_registry a) |};
                  sa_arrays := sa_arrays a; sa_warnings := sa_warnings a |} in
     sa_arrays (final (write_stats_to_dataset st a2))
     = sa_arrays (final (write_stats_to_dataset st a))).
Proof.
  split; [by unfold write_stats, output_writer; intros ->|].
  unfold write_stats_to_dataset. split_and!.
  - intros Hf. apply forallb_id_false in Hf. rewrite Hf. simpl.
    destruct (_ || _); eauto.
  - intros a'. destruct (_ || _) eqn:Hu; [done|].
    apply orb_false_elim in Hu as [-> ->].
    destruct (forallb id _) eqn:Hall; simpl; [|done].
    intros [= <-]. simpl. split_and!; try done.
    intros k v Hkv. unfold add_datasets, written in *. simpl.
    repeat (apply elem_of_cons in Hkv as [[= -> ->]|Hkv];
            [by simplify_map_eq|]).
    by apply not_elem_of_nil in Hkv.
  - intros e a'. destruct (_ || _); [by intros [= _ <-]|].
    destruct (negb _); [by intros [= _ <-]|done].
  - intros durable. simpl. destruct (_ || _); [done|].
    unfold get_flags. simpl. by destruct (negb _).
Qed.

(** C3, as the claim states it, does not hold: on a registry whose
    unsynchronised view reports every group built while a durable flag
    is still false, the precondition read after a re-sync fails, and
    yet the write returns and the statistics arrays are added. *)
Lemma write_stats_ignores_durable_flags :
  let a := Samples.an_adder Samples.stale_registry in
  statistics_output a = None ∧
  fully_built_synced a = false ∧
  ∃ a', write_stats_to_dataset Samples.a_summary a = Done tt a' ∧
        sa_arrays a' !! "mean" = Some (FloatArray [of_int 6]).
Proof.
  split_and!; [done..|]. eexists. split; [reflexivity|]. by vm_compute.
Qed.

(** C4.  The limit of the end-date filter does not depend on the end
    date that the user gave: the code resolves it from
    [user_statistics_start].  With statistics asked from 2020-01-01 to
    2020-01-03 on a dataset of these three days, the code keeps the
    first day only, where the filter by the end date keeps all three. *)
Theorem get_statistics_dates_end_filter_uses_start :
  _get_statistics_dates Samples.exact_resolvers Samples.bounded_adder
    = Return [Samples.day1] ∧
  _get_statistics_dates_intended Samples.exact_resolvers Samples.bounded_adder
    = Return [Samples.day1; Samples.day2; Samples.day3] ∧
  (∀ R a e1 e2,
     let with_end e :=
       {| sa_path := sa_path a; sa_dates := sa_dates a; sa_missing_dates := sa_missing_dates a;
          user_statistics_start := user_statistics_start a;
          user_statistics_end := Some (UDatetime e);
          statistics_output := statistics_output a; sa_attrs := sa_attrs a;
          sa_registry := sa_registry a; sa_arrays := sa_arrays a;
          sa_warnings := sa_warnings a |} in
     _get_statistics_dates R (with_end e1) = _get_statistics_dates R (with_end e2)).
Proof.
  split_and!; [by vm_compute..|].
  intros R a e1 e2. reflexivity.
Qed.

(** C8.  Without a ['variables_with_nans'] entry in the attributes of
    the dataset, [allow_nan] of [StatisticsAdder] and of
    [GenericAdditionsLoader] answers [True] for every name, after a
    warning; with an entry that is a list, it answers whether the name
    is in the list, without a warning.  The cached property of
    [GenericAdditionsLoader] stays coherent with the attributes. *)
Theorem allow_nan_defaults_to_true (name : string) :
  (∀ a, variables_with_nans (sa_attrs a) = None →
        (sa_allow_nan name a).1 = Return true ∧
        ∃ w, (sa_allow_nan name a).2 = sa_warnings a ++ [w]) ∧
  (∀ a l, variables_with_nans (sa_attrs a) = Some (Some l) →
        (sa_allow_nan name a).1 = Return (bool_decide (name ∈ l)) ∧
        (sa_allow_nan name a).2 = sa_warnings a) ∧
  (∀ g, cache_coherent g → variables_with_nans (ga_attrs g) = None →
        (ga_allow_nan name g).1 = true ∧
        cache_coherent (ga_allow_nan name g).2 ∧
        ∃ w, ga_warnings (ga_allow_nan name g).2 = ga_warnings g ++ [w]) ∧
  (∀ g l, cache_coherent g → variables_with_nans (ga_attrs g) = Some (Some l) →
        (ga_allow_nan name g).1 = bool_decide (name ∈ l) ∧
        cache_coherent (ga_allow_nan name g).2 ∧
        ga_warnings (ga_allow_nan name g).2 = ga_warnings g).
Proof.
  split_and!.
  - intros a Ha. unfold sa_allow_nan. rewrite Ha. simpl. eauto.
  - intros a l Ha. unfold sa_allow_nan. by rewrite Ha.
  - intros g Hc Ha. unfold ga_allow_nan, read_variables_with_nans, cache_coherent in *.
    rewrite Ha in *. destruct Hc as [Hc|Hc]; rewrite Hc; simpl; rewrite ?Ha; eauto.
  - intros g l Hc Ha. unfold ga_allow_nan, read_variables_with_nans, cache_coherent in *.
    rewrite Ha in *. destruct Hc as [Hc|Hc]; rewrite Hc; simpl; rewrite ?Ha; eauto.
Qed.

End StatisticsAdderFacts.


(** ** The aggregation of the partial statistics *)

Section OutcomeFacts.

Lemma obind_Return {A B} (m : outcome A) (k : A → outcome B) b :
  obind m k = Return b ↔ ∃ a, m = Return a ∧ k a = Return b.
Proof.
  destruct m as [a|e]; simpl.
  - split; [by exists a|]. by intros (a' & [= <-] & ?).
  - split; [done|]. by intros (a' & ? & ?).
Qed.

Lemma py_assert_Return cond msg u :
  py_assert cond msg = Return u ↔ cond = true.
Proof. unfold py_assert. destruct cond, u; naive_solver. Qed.

End OutcomeFacts.

(** Inversion of a chain of binds that returned. *)
Ltac returned H :=
  repeat match type of H with
  | obind _ _ = Return _ =>
      let a := fresh "a" in
      let Ha := fresh "Ha" in
      apply obind_Return in H as (a & Ha & H)
  end.

Section FinaliseFacts.
Import Loaders.

Lemma absorb_all_sets all_dates variables items : ∀ c c',
  absorb_all all_dates variables items c = Return c' →
  found c' = found c ∪ found_of items ∧
  missing c' = missing c ∪ missing_of items ∧
  (∀ i ri d, items !! i = Some ri → has_statistics ri.2 →
             d ∈ p_dates ri.2 → d ∉ found c) ∧
  (∀ i j ri rj d, i < j → items !! i = Some ri → items !! j = Some rj →
     has_statistics ri.2 → has_statistics rj.2 →
     d ∈ p_dates ri.2 → d ∉ p_dates rj.2).
Proof.
  induction items as [|item items IH]; intros c c' Hrun; simpl in Hrun.
  { injection Hrun as <-. split_and!; [set_solver..| |]; intros; by simplify_list_eq. }
  apply obind_Return in Hrun as (c1 & Hitem & Hrest).
  destruct (IH _ _ Hrest) as (Hf & Hm & Hfresh & Hpair). clear IH.
  unfold absorb in Hitem. simpl.
  destruct (p_missing_dates item.2) as [|md mds] eqn:Hmiss.
  - returned Hitem. apply py_assert_Return in Ha3, Ha4.
    injection Hitem as <-. simpl in *.
    rewrite forallb_forall in Ha3.
    assert (∀ d, d ∈ p_dates item.2 → d ∉ found c) as Hnew.
    { intros d Hd. specialize (Ha3 d). rewrite bool_decide_eq_true in Ha3.
      apply Ha3. by apply list_elem_of_In. }
    split_and!.
    + rewrite Hf. set_solver.
    + done.
    + intros [|i] ri d Hi Hs Hd; simplify_eq/=; [by apply Hnew|].
      specialize (Hfresh i ri d Hi Hs Hd). set_solver.
    + intros [|i] [|j] ri rj d Hlt Hi Hj Hsi Hsj Hd; simplify_eq/=; try lia.
      * intros Hd'. specialize (Hfresh j rj d Hj Hsj Hd'). set_solver.
      * apply (Hpair i j ri rj d); [lia|done..].
  - injection Hitem as <-. simpl in *.
    split_and!.
    + done.
    + rewrite Hm. set_solver.
    + intros [|i] ri d Hi Hs Hd; simplify_eq/=.
      * unfold has_statistics in Hs. congruence.
      * by apply (Hfresh i ri d).
    + intros [|i] [|j] ri rj d Hlt Hi Hj Hsi Hsj Hd; simplify_eq/=; try lia.
      * unfold has_statistics in Hsi. congruence.
      * apply (Hpair i j ri rj d); [lia|done..].
Qed.

(** When the coverage checks of [finalise] pass, the sets they tested
    are those of the records, and the coverage invariant holds. *)
Lemma finalise_coverage_covered all_dates variables items c kept :
  finalise_coverage all_dates variables items = Return (c, kept) →
  found c = found_of items ∧ missing c = missing_of items ∧
  covered all_dates items.
Proof.
  unfold finalise_coverage. intros Hrun. returned Hrun.
  injection Hrun as <- <-.
  apply py_assert_Return in Ha0, Ha1, Ha2.
  destruct (absorb_all_sets _ _ _ _ _ Ha) as (Hf & Hm & _ & Hpair). simpl in *.
  rewrite (left_id_L ∅ (∪)) in Hf, Hm.
  rewrite bool_decide_eq_true in Ha1, Ha2. rewrite forallb_forall in Ha0.
  rewrite Hf, Hm in *.
  unfold covered. split_and!; try done.
  intros d Hd. specialize (Ha0 d). rewrite <- list_elem_of_In in Ha0.
  specialize (Ha0 Hd). apply orb_true_iff in Ha0.
  rewrite !bool_decide_eq_true in Ha0. set_solver.
Qed.

(** C2, as the code has it.  [finalise] returns only if the coverage
    invariant holds of the records it read: every target date is in
    exactly one of the found and missing sets, the two sets are
    disjoint, their sizes add up to the number of target dates, and no
    date is carried by two records that have statistics.  When the
    invariant fails, [finalise] raises while the object is still as it
    was: no summary is set and no array is written. *)
Theorem finalise_checks_coverage E (g : GenericAdditionsLoader) :
  (∀ g', finalise E g = Done tt g' →
     ∃ items, Persistent.items (tmp_storage g) = Return items ∧
              covered (ga_dates g) items) ∧
  (∀ items, Persistent.items (tmp_storage g) = Return items →
     ¬ covered (ga_dates g) items →
     ∃ e, finalise E g = Failed e g).
Proof.
  unfold finalise, rbind, lift.
  destruct (Persistent.items (tmp_storage g)) as [items|e]; [|by split].
  destruct (finalise_coverage (ga_dates g) (ds_variables g) items)
    as [[c kept]|e] eqn:Hcov; simpl.
  - apply finalise_coverage_covered in Hcov as (_ & _ & Hcov).
    split.
    + intros g' _. by exists items.
    + by intros ? [= <-] [].
  - split; [done|]. intros ? _ _. by exists e.
Qed.

Lemma trap_Return operands r r' : trap operands r = Return r' → r' = r.
Proof. unfold trap. repeat case_match; by intros [= <-]. Qed.

Lemma elementwise2_zip_with {A B D} (f : A → B → outcome D) (op : A → B → D) :
  (∀ a b d, f a b = Return d → d = op a b) →
  ∀ l1 l2 l, elementwise2 f l1 l2 = Return l → l = zip_with op l1 l2.
Proof.
  intros Hf. induction l1 as [|a l1 IH]; intros [|b l2] l Hrun; simplify_eq/=; [done|].
  returned Hrun. injection Hrun as <-.
  by rewrite (Hf _ _ _ Ha), (IH _ _ Ha0).
Qed.

Lemma elementwise_Forall2 {A D} (f : A → outcome D) l l' :
  elementwise f l = Return l' → Forall2 (λ a d, f a = Return d) l l'.
Proof.
  revert l'. induction l as [|a l IH]; intros l' Hrun; simplify_eq/=; [done|].
  returned Hrun. injection Hrun as <-. constructor; [done|]. by apply IH.
Qed.

(** A variance that passed [check_variance] and whose square root did
    not raise is not negative: clamping it at zero changes nothing. *)
Lemma sqrt_of_checked eps v sd :
  SFleb (SFopp eps) v = true → fp_sqrt v = Return sd → sd = sqrt_clamped v.
Proof.
  intros Hle Hsd. unfold sqrt_clamped, fp_sqrt in *.
  destruct v as [sg|[]| |[] m e]; try done.
  - apply trap_Return in Hsd. by destruct sg.
  - by apply trap_Return in Hsd.
  - by destruct eps as [[]|[]| |[]].
  - by apply trap_Return in Hsd.
Qed.

(** C5.  When the reduction of [finalise] returns a summary, its mean is
    [sums / count], the variance [squares / count - mean * mean] is at
    least [-epsilon] for every variable, and the standard deviation is
    the square root of the variance clamped at zero.  A variance below
    [-epsilon] therefore ends the reduction with an exception. *)
Theorem finalise_reduce_derives E variables rows s :
  finalise_reduce E variables rows = Return s →
  s_mean s = zip_with (SFdiv prec emax) (s_sums s) (map of_int (s_count s)) ∧
  Forall (λ v, SFleb (SFopp (epsilon E)) v = true) (variance s) ∧
  s_stdev s = map sqrt_clamped (variance s).
Proof.
  unfold finalise_reduce. intros Hrun. returned Hrun. injection Hrun as <-.
  unfold variance. simpl.
  pose proof (λ a b d (H : fp_div a b = Return d), trap_Return _ _ _ H) as Hdiv.
  pose proof (λ a b d (H : fp_mul a b = Return d), trap_Return _ _ _ H) as Hmul.
  pose proof (λ a b d (H : fp_sub a b = Return d), trap_Return _ _ _ H) as Hsub.
  apply (elementwise2_zip_with _ _ Hdiv) in Ha3 as ->, Ha4 as ->.
  apply (elementwise2_zip_with _ _ Hmul) in Ha5 as ->.
  apply (elementwise2_zip_with _ _ Hsub) in Ha6 as ->.
  set (x := zip_with _ _ _) in *.
  unfold check_variance in Ha7. destruct (forallb _ x) eqn:Hall; [|done].
  rewrite forallb_forall in Hall.
  assert (Forall (λ v, SFleb (SFopp (epsilon E)) v = true) x) as Hx.
  { apply Forall_forall. intros v Hv. apply Hall. by apply list_elem_of_In. }
  split_and!; try done.
  apply elementwise_Forall2 in Ha8. clear -Ha8 Hx.
  induction Ha8 as [|v sd x sds Hsd _ IH]; [done|].
  apply Forall_cons in Hx as [Hv Hx]. simpl.
  by rewrite (sqrt_of_checked _ _ _ Hv Hsd), (IH Hx).
Qed.

End FinaliseFacts.

(** ** Masked views *)

Section MaskedFacts.
Import Masked.

Lemma select_length {A} (l : list A) (m : list bool) :
  length m = length l →
  length (select l m) = count_nonzero (Some m).
Proof.
  unfold select, count_nonzero. rewrite length_fmap.
  revert m. induction l as [|x l IH]; intros [|b m] Hlen; simplify_eq/=; [done|].
  rewrite !filter_cons. destruct b; simpl; repeat case_decide; try done; simpl.
  - f_equal. by apply IH.
  - by apply IH.
Qed.

Lemma removelast_4 (l : list nat) :
  length l = 4 → removelast l = take 3 l.
Proof. intros Hl. do 5 (destruct l as [|? l]; simplify_eq/=); done. Qed.

Lemma trim_mask_length e rows cols :
  length (flat_map (λ r, map (trimmed e rows cols r) (seq 0 cols)) (seq 0 rows))
  = rows * cols.
Proof.
  assert (∀ (g : nat → nat → bool) l,
            length (flat_map (λ r, map (g r) (seq 0 cols)) l) = length l * cols) as Hlen.
  { intros g l. induction l as [|r l IH]; simpl; [done|].
    by rewrite length_app, length_map, length_seq, IH. }
  by rewrite Hlen, length_seq.
Qed.

(** What the constructors return are views over [forward]: with a
    boolean mask for [Thinning] with a step, [MaskFromDataset],
    [Cropping] and [TrimEdge], whose mask has one entry per point of the
    field; with the mask [None] for [Thinning] without a step. *)
Lemma constructors_return_views forward view :
  (∀ t method, thinning_init forward (Some t) method = Return view →
     ∃ m, view = View (KThinning (Some t) method) forward (Some m)) ∧
  (∀ method, thinning_init forward None method = Return view →
     view = View (KThinning None method) forward None) ∧
  (∀ dataset field_name threshold,
     mask_from_dataset_init forward dataset field_name threshold = Return view →
     ∃ m, view = View (KMaskFromDataset field_name threshold) forward (Some m)) ∧
  (∀ area m, cropping_init forward area m = Return view →
     view = View (KCropping area) forward (Some m)) ∧
  (∀ edge, trim_edge_init forward edge = Return view →
     ∃ e m x y, view = View (KTrimEdge e) forward (Some m) ∧
                field_shape forward = [x; y] ∧
                length m = Z.to_nat x * Z.to_nat y).
Proof.
  unfold thinning_init, mask_from_dataset_init, cropping_init, trim_edge_init,
    masked_init.
  split_and!.
  - intros t method Hrun. returned Hrun. simplify_eq/=.
    returned Ha. simplify_eq/=. eauto.
  - intros method. simpl. case_bool_decide; simpl; [|done]. by intros [= <-].
  - intros dataset field_name threshold Hrun.
    repeat case_match; simplify_eq/=. returned Hrun. simplify_eq/=. eauto.
  - intros area m Hrun. returned Hrun. by simplify_eq/=.
  - intros edge Hrun. apply obind_Return in Hrun as (e & He & Hrun).
    destruct (field_shape forward) as [|x [|y [|? ?]]]; simplify_eq/=.
    repeat case_match; simplify_eq/=; returned Hrun; simplify_eq/=;
      eexists _, _, x, y; (split_and!; try done); apply trim_mask_length.
Qed.

(** C9, as the code has it.  For a view of any of the classes, over a
    forward dataset of four dimensions, whose mask is a boolean array
    with one entry per row of the latitudes and of the longitudes of
    the forward dataset: the constructor of [Masked] accepts it, its
    shape is that of the forward dataset with the last axis replaced by
    the number of true entries of the mask, its latitudes and longitudes
    are those of the forward dataset at the true entries, and their
    lengths are that last axis. *)
Theorem masked_shape_and_coordinates k forward (m : list bool) lats lons :
  length (shape forward) = 4 →
  latitudes forward = Return (Arr lats) →
  longitudes forward = Return (Arr lons) →
  length m = length lats →
  length m = length lons →
  let view := View k forward (Some m) in
  masked_init k forward (Some m) = Return view ∧
  shape view = take 3 (shape forward) ++ [count_nonzero (Some m)] ∧
  last (shape view) = Some (count_nonzero (Some m)) ∧
  latitudes view = Return (Arr (select lats m)) ∧
  longitudes view = Return (Arr (select lons m)) ∧
  (a <- latitudes view ;; np_len a)%outcome = Return (count_nonzero (Some m)) ∧
  (a <- longitudes view ;; np_len a)%outcome = Return (count_nonzero (Some m)).
Proof.
  intros H4 Hlat Hlon Hmlat Hmlon view. unfold view, masked_init.
  cbn [shape latitudes longitudes]. rewrite Hlat, Hlon. simpl.
  rewrite !bool_decide_eq_true_2 by done. simpl.
  rewrite removelast_4 by done. rewrite last_snoc.
  rewrite !select_length by done. done.
Qed.

(** C9, as the claim states it, does not hold of every view.
    [Thinning] built with [thinning=None] has the mask [None]: the last
    axis of its shape is 0, while its latitudes are the two latitudes of
    the forward dataset under a new first axis of length 1.  And a mask
    with one entry over a grid of two points gives a shape whose last
    axis is 1 and latitudes that raise [IndexError]. *)
Lemma masked_shape_counterexample :
  (∃ view, thinning_init Samples.two_points None "every-nth" = Return view ∧
           last (shape view) = Some 0 ∧
           (a <- latitudes view ;; np_len a)%outcome = Return 1) ∧
  (∃ view, masked_init KMasked Samples.two_points (Some [true]) = Return view ∧
           last (shape view) = Some 1 ∧
           latitudes view = Raise IndexError).
Proof. split; eexists; (split; [reflexivity|]); by vm_compute. Qed.

(** C10.  A [Thinning] built with [thinning=None] over a forward dataset
    of four dimensions keeps the mask [None], and its [mutate()] is
    [forward.mutate()]: the view is gone from what [mutate] returns. *)
Theorem thinning_none_is_identity base_mutate forward method view :
  thinning_init forward None method = Return view →
  view = View (KThinning None method) forward None ∧
  mutate base_mutate view = mutate base_mutate forward.
Proof.
  unfold thinning_init, masked_init. simpl.
  case_bool_decide; simpl; [|done]. by intros [= <-].
Qed.

End MaskedFacts.

(** ** The properties at work on the sample data *)

Section Instances.
Import Samples.

(** The steps of the worker that owns the first two groups of three. *)
Example load_steps :
  Loaders.trace (final (Loaders.load two_of_three fresh_loader)) =
  [Loaders.EvHistory "loading_data_start";
   Loaders.EvSelect [day1; day2];
   Loaders.EvStage [0; 0; 0]; Loaders.EvStage [1; 0; 0];
   Loaders.EvStatistics [day1; day2];
   Loaders.EvFlush [day1; day2]; Loaders.EvSetFlag 0;
   Loaders.EvSelect [day3];
   Loaders.EvStage [0; 0; 0];
   Loaders.EvStatistics [day3];
   Loaders.EvFlush [day3]; Loaders.EvSetFlag 1;
   Loaders.EvHistory "loading_data_end";
   Loaders.EvProvenance "provenance_load"] ∧
  Loaders.flags (Loaders.the_registry (final (Loaders.load two_of_three fresh_loader)))
  = [true; true; false].
Proof. split; by vm_compute. Qed.

(** When the array store refuses the write, the run ends at the first
    flush and no flag is set. *)
Example load_steps_store_down :
  Loaders.load store_down fresh_loader
  = Failed CollaboratorError (final (Loaders.load store_down fresh_loader)) ∧
  Loaders.trace (final (Loaders.load store_down fresh_loader)) =
  [Loaders.EvHistory "loading_data_start";
   Loaders.EvSelect [day1; day2];
   Loaders.EvStage [0; 0; 0]; Loaders.EvStage [1; 0; 0];
   Loaders.EvStatistics [day1; day2]] ∧
  Loaders.flags (Loaders.the_registry (final (Loaders.load store_down fresh_loader)))
  = [false; false; false].
Proof. split_and!; by vm_compute. Qed.

(** The records of the values 5 and 7 aggregate to the mean 6 and the
    standard deviation 1. *)
Example aggregation_of_two_records :
  ∃ g, Loaders.finalise agreeing two_records = Done tt g ∧
       Loaders.ga_arrays g !! "mean" = Some (Loaders.FloatArray [Loaders.of_int 6]) ∧
       Loaders.ga_arrays g !! "stdev" = Some (Loaders.FloatArray [Loaders.of_int 1]) ∧
       Loaders.ga_arrays g !! "count" = Some (Loaders.IntArray [2%Z]) ∧
       Persistent.files (Loaders.tmp_storage g) = None.
Proof. eexists. split_and!; by vm_compute. Qed.

(** A variance of -1 ends the reduction. *)
Example negative_variance_is_fatal :
  Loaders.finalise_reduce agreeing ["t"]
    [[ {| Loaders.minimum := Loaders.of_int 1; Loaders.maximum := Loaders.of_int 1;
          Loaders.sums := Loaders.of_int 2; Loaders.squares := Loaders.of_int 0;
          Loaders.count := 2; Loaders.has_nans := false |} ]]
  = Raise (ValueError "Negative variance").
Proof. by vm_compute. Qed.

(** Thinning a grid of three by three points by 2 keeps its corners;
    trimming one point at each edge keeps its centre. *)
Example thinning_by_two :
  mask_of (Masked.thinning_init three_by_three (Some 2%Z) "every-nth")
  = Some [true; false; true; false; false; false; true; false; true].
Proof. by vm_compute. Qed.

Example trim_edge_by_one :
  mask_of (Masked.trim_edge_init three_by_three (Masked.EdgeInt 1))
  = Some [false; false; false; false; true; false; false; false; false].
Proof. by vm_compute. Qed.

(** C2, as the claim states it, does not hold: the third date is
    reported missing by two of the three partial records, and [finalise]
    returns with a summary and writes the statistics. *)
Lemma finalise_accepts_date_missing_twice :
  ∃ items g',
    Persistent.items (Loaders.tmp_storage missing_twice) = Return items ∧
    (∃ i j ri rj, i ≠ j ∧ items !! i = Some ri ∧ items !! j = Some rj ∧
                  day3 ∈ Loaders.p_missing_dates ri.2 ∧
                  day3 ∈ Loaders.p_missing_dates rj.2) ∧
    Loaders.finalise agreeing missing_twice = Done tt g' ∧
    is_Some (Loaders.summary g') ∧
    Loaders.ga_arrays g' !! "mean" = Some (Loaders.FloatArray [Loaders.of_int 5]).
Proof.
  eexists _, _. split; [by vm_compute|]. split.
  - exists 0, 2. eexists _, _. split; [done|].
    split; [reflexivity|]. split; [reflexivity|]. simpl.
    split; set_solver.
  - split; [by vm_compute|]. split; [by eexists|]. by vm_compute.
Qed.

(** C7 on an empty directory: two writes of the key ["2020-01-01"]. *)
Lemma setitem_last_write_wins_witness :
  Persistent.files empty_store = Some ∅ ∧
  ∃ d1 d2 l,
    Persistent.setitem id prefix_hasher "4242" "node1" "2020-01-01" 1 empty_store
      = Return d1 ∧
    Persistent.setitem id prefix_hasher "4242" "node1" "2020-01-01" 2 d1
      = Return d2 ∧
    Persistent.items d2 = Return l ∧ ("2020-01-01", 2) ∈ l.
Proof.
  split; [reflexivity|].
  destruct (setitem_last_write_wins id prefix_hasher "4242" "node1"
              "2020-01-01" 1 2 empty_store ∅ eq_refl)
    as (d1 & d2 & fs1 & fs2 & _ & E1 & _ & _ & E2 & _ & _ & _ & _ & l & El & Hin & _).
  by exists d1, d2, l.
Defined.

(** C1 on the build of three groups: the flag of the first group is set,
    after its flush. *)
Lemma load_sets_flag_after_flush_witness :
  ∃ evs,
    Loaders.trace (final (Loaders.load two_of_three fresh_loader))
      = Loaders.trace fresh_loader ++ evs ∧
    Loaders.flag_after_flush two_of_three evs ∧
    Loaders.EvSetFlag 0 ∈ evs.
Proof.
  destruct (load_sets_flag_after_flush two_of_three fresh_loader)
    as (evs & Ht & Ho & Hc).
  exists evs. split; [exact Ht|]. split; [exact Ho|].
  destruct (Hc 0) as (g & _ & Hset & _); [by vm_compute|exact Hset].
Defined.

(** C6 on the build of three groups: the second run changes nothing. *)
Lemma load_twice_is_idempotent_witness :
  ∃ s1 s2,
    Loaders.load two_of_three fresh_loader = Done tt s1 ∧
    Loaders.load two_of_three s1 = Done tt s2 ∧
    Loaders.data_array s2 = Loaders.data_array s1 ∧
    Loaders.flags (Loaders.the_registry s2) = Loaders.flags (Loaders.the_registry s1).
Proof.
  assert (Loaders.load two_of_three fresh_loader
          = Done tt (final (Loaders.load two_of_three fresh_loader))) as Hfirst
    by (vm_compute; reflexivity).
  destruct (load_twice_is_idempotent two_of_three _ _ Hfirst)
    as (s2 & evs & Hsecond & Hdata & Hflags & _).
  by exists (final (Loaders.load two_of_three fresh_loader)), s2.
Defined.

(** C3 on a registry whose view lags: the write is refused. *)
Lemma write_stats_checks_unsynced_flags_witness :
  false ∈ Loaders.get_flags false lagging_registry ∧
  ∃ e, Loaders.write_stats_to_dataset a_summary (an_adder lagging_registry)
       = Failed e (an_adder lagging_registry).
Proof.
  assert (false ∈ Loaders.get_flags false lagging_registry) as Hin.
  { apply list_elem_of_further, list_elem_of_here. }
  split; [exact Hin|].
  exact (proj1 (proj2 (write_stats_checks_unsynced_flags a_summary
                         (an_adder lagging_registry))) Hin).
Defined.

(** C8 on a dataset without the entry, and on one with the list [["t"]]. *)
Lemma allow_nan_defaults_to_true_witness :
  (Loaders.sa_allow_nan "q" (an_adder stale_registry)).1 = Return true ∧
  (Loaders.sa_allow_nan "q" bounded_adder).1 = Return false ∧
  (Loaders.ga_allow_nan "q" two_records).1 = true.
Proof.
  destruct (allow_nan_defaults_to_true "q") as (Hsa & Hsl & Hga & _).
  split; [exact (proj1 (Hsa (an_adder stale_registry) eq_refl))|].
  split; [exact (proj1 (Hsl bounded_adder ["t"] eq_refl))|].
  exact (proj1 (Hga two_records (or_introl eq_refl) eq_refl)).
Defined.

(** C2 on two records that cover two dates, and on one record that
    leaves the second date out. *)
Lemma finalise_checks_coverage_witness :
  (∃ items, Persistent.items (Loaders.tmp_storage two_records) = Return items ∧
            Loaders.covered (Loaders.ga_dates two_records) items) ∧
  (∃ e, Loaders.finalise agreeing one_record_short = Failed e one_record_short).
Proof.
  split.
  - apply (proj1 (finalise_checks_coverage agreeing two_records)
             (final (Loaders.finalise agreeing two_records))).
    vm_compute. reflexivity.
  - apply (proj2 (finalise_checks_coverage agreeing one_record_short)
             [one_date 0 day1 5]).
    + vm_compute. reflexivity.
    + intros (Hall & _). destruct (Hall day2) as [[Hin _]|[_ Hin]].
      * apply list_elem_of_further, list_elem_of_here.
      * vm_compute in Hin. set_solver.
      * vm_compute in Hin. set_solver.
Defined.

(** C5 on the values 5 and 7 of one variable: mean 6, variance 1,
    standard deviation 1. *)
Lemma finalise_reduce_derives_witness :
  ∃ s, Loaders.finalise_reduce agreeing ["t"] [[cell_of 5]; [cell_of 7]] = Return s ∧
       Loaders.s_mean s = [Loaders.of_int 6] ∧
       Loaders.variance s = [Loaders.of_int 1] ∧
       Loaders.s_stdev s = map Loaders.sqrt_clamped (Loaders.variance s) ∧
       Loaders.s_stdev s = [Loaders.of_int 1].
Proof.
  eexists. split; [vm_compute; reflexivity|].
  split; [by vm_compute|]. split; [by vm_compute|].
  split; [|by vm_compute].
  refine (proj2 (proj2 (finalise_reduce_derives agreeing ["t"]
                          [[cell_of 5]; [cell_of 7]] _ _))).
  vm_compute. reflexivity.
Defined.

(** C9 on the grid of two points, with the mask that keeps the first. *)
Lemma masked_shape_and_coordinates_witness :
  Masked.shape (Masked.View Masked.KMasked two_points (Some [true; false]))
    = [1; 1; 1; 1] ∧
  Masked.latitudes (Masked.View Masked.KMasked two_points (Some [true; false]))
    = Return (Masked.vector [Loaders.of_int 10]).
Proof.
  destruct (masked_shape_and_coordinates Masked.KMasked two_points [true; false]
              (map Masked.Scalar [Loaders.of_int 10; Loaders.of_int 20])
              (map Masked.Scalar [Loaders.of_int 30; Loaders.of_int 40])
              eq_refl eq_refl eq_refl eq_refl eq_refl)
    as (_ & Hshape & _ & Hlat & _).
  split; [exact Hshape|exact Hlat].
Defined.

(** C10 on the grid of two points. *)
Lemma thinning_none_is_identity_witness :
  ∃ view, Masked.thinning_init two_points None "every-nth" = Return view ∧
          Masked.mutate id view = Masked.mutate id two_points.
Proof.
  eexists. split; [reflexivity|].
  exact (proj2 (thinning_none_is_identity id two_points "every-nth" _ eq_refl)).
Defined.

End Instances.
